(** * VideoDownloader: the download orchestration of
      [src/components/VideoDownloader.tsx], embedded in Rocq.

    The component is a React function component: six [useState] cells, one
    [useEffect] on [url], and four handlers, two of which are [async] and
    suspend at an [await].  The embedding keeps that shape:

    - [JS]: ECMAScript numbers (IEEE-754 binary64 through the Standard
      Library's [SpecFloat]), with [Math.floor], [Math.max], [%], truthiness
      and [Number::toString], and [String.prototype.split];
    - [State], [Action], [World]: the six state cells, the chronological
      trace of everything a handler does (state writes, HTTP requests, toasts,
      the file save), and the [async] calls suspended at their [await];
    - a small state/trace/exception monad [M] in which the handlers are
      written statement by statement, [try]/[catch]/[finally] included;
    - [step]: what the component does at one event of the environment (typing,
      a click, a promise settling, a progress callback). *)

From Stdlib Require Import ZArith QArith Qround Bool List String Ascii Lia.
From Stdlib Require Import SpecFloat DecimalString.
Import ListNotations.
Close Scope Q_scope.

Set Implicit Arguments.

(* ================================================================== *)
(** * ECMAScript values used by the component *)
(* ================================================================== *)

Module JS.

Local Open Scope Z_scope.

(** A Number is an IEEE-754 binary64 value (NaN payloads are not
    observable in ECMAScript). *)
Definition number : Type := spec_float.

Definition prec : Z := 53.
Definition emax : Z := 1024.

Definition NaN : number := S754_nan.
Definition Infinity : number := S754_infinity false.

(** The Number value of an integer literal. *)
Definition of_Z (z : Z) : number := binary_normalize prec emax z 0 false.

Definition sub : number -> number -> number := SFsub prec emax.
Definition mul : number -> number -> number := SFmul prec emax.
Definition div : number -> number -> number := SFdiv prec emax.

(** [a < b] and [a > b]: [false] as soon as an operand is NaN. *)
Definition lt (a b : number) : bool := SFltb a b.
Definition gt (a b : number) : bool := SFltb b a.
Definition le (a b : number) : bool := SFleb a b.

(** ToBoolean on a Number: [+0], [-0] and NaN are falsy. *)
Definition truthy (x : number) : bool :=
  match x with
  | S754_zero _ | S754_nan => false
  | _ => true
  end.

(** ToBoolean on a String: only the empty string is falsy. *)
Definition truthy_string (s : string) : bool :=
  match s with
  | EmptyString => false
  | _ => true
  end.

(** ToBoolean on a possibly [undefined] string. *)
Definition truthy_opt (o : option string) : bool :=
  match o with
  | Some s => truthy_string s
  | None => false
  end.

(** [x || d] on a possibly [undefined] number. *)
Definition or_default (x : option number) (d : number) : number :=
  match x with
  | Some v => if truthy v then v else d
  | None => d
  end.

Definition is_finite (x : number) : bool :=
  match x with
  | S754_zero _ | S754_finite _ _ _ => true
  | _ => false
  end.

(** [Math.floor]: the largest integral Number not above [x]; [-0], NaN and
    the infinities are returned as they are, and a positive fraction below
    one gives [+0]. *)
Definition Math_floor (x : number) : number :=
  match x with
  | S754_finite s m e =>
      if 0 <=? e then x
      else
        let q := Z.shiftr (Zpos m) (- e) in
        let exact := Z.shiftl q (- e) =? Zpos m in
        if s then of_Z (- (if exact then q else q + 1))
        else of_Z q
  | _ => x
  end.

(** [Math.max] of two arguments: NaN if either is NaN, and [+0] is larger
    than [-0]. *)
Definition Math_max (a b : number) : number :=
  match SFcompare a b with
  | None => NaN
  | Some Lt => b
  | Some Gt => a
  | Some Eq =>
      match a with
      | S754_zero true => b
      | _ => a
      end
  end.

(** [n % d] (Number::remainder): the result has the sign of the dividend
    and is exact. *)
Definition rem (n d : number) : number :=
  match n, d with
  | S754_nan, _ | _, S754_nan => NaN
  | S754_infinity _, _ => NaN
  | _, S754_infinity _ => n
  | _, S754_zero _ => NaN
  | S754_zero _, _ => n
  | S754_finite sn mn en, S754_finite _ md ed =>
      let e := Z.min en ed in
      let a := Z.shiftl (Zpos mn) (en - e) in
      let b := Z.shiftl (Zpos md) (ed - e) in
      binary_normalize prec emax (cond_Zopp sn (a mod b)) e sn
  end.

(** ** Number::toString (radix 10)

    The digits are the shortest decimal [s * 10^(n-k)] that rounds to the
    Number, the closest one when several have [k] digits. *)

Local Open Scope Q_scope.

Definition pow2Q (e : Z) : Q :=
  if (0 <=? e)%Z then inject_Z (2 ^ e) else 1 # Z.to_pos (2 ^ (- e)).

Definition pow10Q (n : Z) : Q :=
  if (0 <=? n)%Z then inject_Z (10 ^ n) else 1 # Z.to_pos (10 ^ (- n)).

Definition Qltb (a b : Q) : bool :=
  match a ?= b with Lt => true | _ => false end.

Definition Qabs' (a : Q) : Q := if Qltb a 0 then - a else a.

(** The reals that round (to nearest, ties to even) to the positive Number
    [m * 2^e]: the interval between the midpoints to its neighbours, closed
    when [m] is even. *)
Definition rounds_to (m : positive) (e : Z) (v : Q) : bool :=
  let low :=
    if Pos.eqb m (2 ^ 52) && (emin prec emax <? e)%Z
    then inject_Z (4 * Zpos m - 1) * pow2Q (e - 2)
    else inject_Z (2 * Zpos m - 1) * pow2Q (e - 1) in
  let high := inject_Z (2 * Zpos m + 1) * pow2Q (e - 1) in
  if Z.even (Zpos m)
  then Qle_bool low v && Qle_bool v high
  else Qltb low v && Qltb v high.

(** The least [n] from [n0] on with [x < 10^n]. *)
Fixpoint decade_from (fuel : nat) (x : Q) (n0 : Z) : Z :=
  match fuel with
  | O => n0
  | S fuel' => if Qltb x (pow10Q n0) then n0 else decade_from fuel' x (n0 + 1)
  end.

(** [n] with [10^(n-1) <= m * 2^e < 10^n], searched from an
    underestimate read off the binary length. *)
Definition decade (m : positive) (e : Z) : Z :=
  let d := (Zpos (digits2_pos m) + e)%Z in
  decade_from 8 (inject_Z (Zpos m) * pow2Q e) ((d - 1) * 30103 / 100000 - 1).

(** The [k]-digit candidate for [x = m * 2^e] in the decade [n], if one
    rounds to [x]. *)
Definition digits_at (m : positive) (e n k : Z) : option Z :=
  let x := inject_Z (Zpos m) * pow2Q e in
  let p := pow10Q (n - k) in
  let lo := Qfloor (x / p) in
  let hi := (lo + 1)%Z in
  let ok s := rounds_to m e (inject_Z s * p) in
  match ok lo, ok hi with
  | true, true =>
      let dlo := Qabs' (x - inject_Z lo * p) in
      let dhi := Qabs' (inject_Z hi * p - x) in
      if Qltb dlo dhi then Some lo
      else if Qltb dhi dlo then Some hi
      else Some (if Z.even lo then lo else hi)
  | true, false => Some lo
  | false, true => Some hi
  | false, false => None
  end.

(** The least [k] from [k] on that has a candidate; seventeen digits
    always identify a binary64 value. *)
Fixpoint shortest (fuel : nat) (m : positive) (e n k : Z) : Z * Z :=
  match fuel with
  | O => (Qfloor (inject_Z (Zpos m) * pow2Q e / pow10Q (n - k)), k)
  | S fuel' =>
      match digits_at m e n k with
      | Some s => (s, k)
      | None => shortest fuel' m e n (k + 1)
      end
  end.

Local Open Scope string_scope.
Local Open Scope Z_scope.

Definition digits_of (z : Z) : string := NilZero.string_of_int (Z.to_int z).

Fixpoint zeros (n : nat) : string :=
  match n with
  | O => ""
  | S n' => String "0" (zeros n')
  end.

(** The text of the positive Number [m * 2^e]. *)
Definition ToString_pos (m : positive) (e : Z) : string :=
  let n0 := decade m e in
  let '(s0, k) := shortest 17 m e n0 1 in
  let '(s, n) := if s0 =? 10 ^ k then (s0 / 10, n0 + 1) else (s0, n0) in
  let D := digits_of s in
  if (k <=? n) && (n <=? 21) then
    D ++ zeros (Z.to_nat (n - k))
  else if (0 <? n) && (n <=? 21) then
    substring 0 (Z.to_nat n) D ++ "." ++ substring (Z.to_nat n) (Z.to_nat (k - n)) D
  else if (-6 <? n) && (n <=? 0) then
    "0." ++ zeros (Z.to_nat (- n)) ++ D
  else
    let ex := n - 1 in
    let sign := if ex <? 0 then "-" else "+" in
    let mant := if k =? 1 then D
                else substring 0 1 D ++ "." ++ substring 1 (Z.to_nat (k - 1)) D in
    mant ++ "e" ++ sign ++ digits_of (Z.abs ex).

(** What a template literal puts in place of a Number. *)
Definition ToString (x : number) : string :=
  match x with
  | S754_nan => "NaN"
  | S754_zero _ => "0"
  | S754_infinity false => "Infinity"
  | S754_infinity true => "-Infinity"
  | S754_finite false m e => ToString_pos m e
  | S754_finite true m e => "-" ++ ToString_pos m e
  end.

(** ** String.prototype.split, for a non-empty separator

    [skip] counts the characters of a separator just matched that are
    still to be passed over. *)
Fixpoint split_from (sep : string) (skip : nat) (s : string) : list string :=
  match s with
  | EmptyString => [EmptyString]
  | String c s' =>
      match skip with
      | S skip' => split_from sep skip' s'
      | O =>
          if prefix sep s
          then EmptyString :: split_from sep (String.length sep - 1) s'
          else
            match split_from sep 0 s' with
            | part :: parts => String c part :: parts
            | [] => [String c EmptyString]
            end
      end
  end.

Definition split (sep s : string) : list string := split_from sep 0 s.

(** String(v) of a possibly [undefined] string, as [+] and [setAttribute]
    convert it. *)
Definition StringOf (o : option string) : string :=
  match o with
  | Some s => s
  | None => "undefined"
  end.

End JS.

(* ================================================================== *)
(** * The component *)
(* ================================================================== *)

Module VideoDownloader.

Import JS.
Local Open Scope string_scope.

(** ** Data *)

(** The body of a [/video-info] response, and so the value kept in
    [videoInfo]: the fields the component reads. *)
Record ResponseData := mkData {
  data_error : option string;
  data_title : option string;
  data_thumbnail : option string
}.

(** The [/download] response: [headers['content-disposition']] and
    [data.size] of the blob. *)
Record DownloadResponse := mkResponse {
  content_disposition : option string;
  size : N
}.

(** What [onDownloadProgress] reads from its event. *)
Record ProgressEvent := mkProgress {
  loaded : number;
  total : option number;
  startTime : option number
}.

(** How an awaited promise settles; [Rejected] carries [err.message]. *)
Inductive Settled (A : Type) : Type :=
| Resolved (a : A)
| Rejected (message : string).
Arguments Rejected {A} message.

(** The six [useState] cells (lines 8-13). *)
Record State := mkState {
  url : string;
  error : string;
  loading : bool;
  videoInfo : option ResponseData;
  progress : number;
  estimatedTime : option string
}.

Definition initial : State :=
  {| url := ""; error := ""; loading := false; videoInfo := None;
     progress := of_Z 0; estimatedTime := None |}.

(** Everything a handler does that is visible outside it, in the order in
    which it does it. *)
Inductive Action : Type :=
| SetUrl (u : string)
| SetError (m : string)
| SetLoading (b : bool)
| SetVideoInfo (v : option ResponseData)
| SetProgress (p : number)
| SetEstimatedTime (t : option string)
| PostVideoInfo (u : string)
| PostDownload (u : string) (title : option string)
| ToastError (m : string)
| ToastSuccess (m : string)
| SaveFile (filename : string) (bytes : N)
| ReadClipboard.

(** An [async] function suspended at its [await], with the variables its
    closure captured. *)
Inductive Suspended : Type :=
| InFetchVideoInfo (u : string)
| InHandleDownload (u : string) (info : option ResponseData)
| InHandlePaste.

Record World := mkWorld {
  state : State;
  trace : list Action;
  inflight : list (nat * Suspended);
  fresh : nat
}.

Definition start : World :=
  {| state := initial; trace := []; inflight := []; fresh := 0 |}.

(** ** The monad of handler code: state, trace and exceptions *)

Inductive Completion (A : Type) : Type :=
| Normal (a : A)
| Throw (message : string).
Arguments Throw {A} message.

Definition M (A : Type) : Type := World -> Completion A * World.

Definition ret {A} (a : A) : M A := fun w => (Normal a, w).

Definition bind {A B} (c : M A) (k : A -> M B) : M B :=
  fun w =>
    match c w with
    | (Normal a, w') => k a w'
    | (Throw m, w') => (Throw m, w')
    end.

Definition throw {A} (message : string) : M A := fun w => (Throw message, w).

Definition try_catch {A} (body : M A) (handler : string -> M A) : M A :=
  fun w =>
    match body w with
    | (Normal a, w') => (Normal a, w')
    | (Throw m, w') => handler m w'
    end.

Definition finally {A} (body : M A) (finalizer : M unit) : M A :=
  fun w =>
    let (c, w') := body w in
    match finalizer w' with
    | (Normal _, w'') => (c, w'')
    | (Throw m, w'') => (Throw m, w'')
    end.

Notation "x <- c ;; k" := (bind c (fun x => k))
  (at level 61, c at next level, right associativity).
Notation "c ;; k" := (bind c (fun _ => k))
  (at level 61, right associativity).

(** The closure's view of the state cells. *)
Definition get : M State := fun w => (Normal (state w), w).

(** One visible action together with its effect on the state cells. *)
Definition act (a : Action) (f : State -> State) : M unit :=
  fun w =>
    (Normal tt,
     {| state := f (state w); trace := trace w ++ [a];
        inflight := inflight w; fresh := fresh w |}).

Definition setUrl (u : string) : M unit :=
  act (SetUrl u) (fun s =>
    {| url := u; error := error s; loading := loading s;
       videoInfo := videoInfo s; progress := progress s;
       estimatedTime := estimatedTime s |}).

Definition setError (m : string) : M unit :=
  act (SetError m) (fun s =>
    {| url := url s; error := m; loading := loading s;
       videoInfo := videoInfo s; progress := progress s;
       estimatedTime := estimatedTime s |}).

Definition setLoading (b : bool) : M unit :=
  act (SetLoading b) (fun s =>
    {| url := url s; error := error s; loading := b;
       videoInfo := videoInfo s; progress := progress s;
       estimatedTime := estimatedTime s |}).

Definition setVideoInfo (v : option ResponseData) : M unit :=
  act (SetVideoInfo v) (fun s =>
    {| url := url s; error := error s; loading := loading s;
       videoInfo := v; progress := progress s;
       estimatedTime := estimatedTime s |}).

Definition setProgress (p : number) : M unit :=
  act (SetProgress p) (fun s =>
    {| url := url s; error := error s; loading := loading s;
       videoInfo := videoInfo s; progress := p;
       estimatedTime := estimatedTime s |}).

Definition setEstimatedTime (t : option string) : M unit :=
  act (SetEstimatedTime t) (fun s =>
    {| url := url s; error := error s; loading := loading s;
       videoInfo := videoInfo s; progress := progress s;
       estimatedTime := t |}).

Definition toast_error (m : string) : M unit := act (ToastError m) (fun s => s).
Definition toast_success (m : string) : M unit := act (ToastSuccess m) (fun s => s).
Definition save_file (filename : string) (bytes : N) : M unit :=
  act (SaveFile filename bytes) (fun s => s).

(** [await] on a call just made: the call is traced and the rest of the
    function is parked until the promise settles. *)
Definition await (call : Action) (k : Suspended) : M unit :=
  fun w =>
    (Normal tt,
     {| state := state w; trace := trace w ++ [call];
        inflight := inflight w ++ [(fresh w, k)]; fresh := S (fresh w) |}).

(** The value of an [await] once the promise has settled. *)
Definition settled {A} (r : Settled A) : M A :=
  match r with
  | Resolved a => ret a
  | Rejected m => throw m
  end.

(** ** The handlers *)

(** [formatTime] (lines 133-137). *)
Definition formatTime (seconds : number) : string :=
  let minutes := Math_floor (div seconds (of_Z 60)) in
  let secs := Math_floor (rem seconds (of_Z 60)) in
  ToString minutes ++ "m " ++ ToString secs ++ "s".

(** [fetchVideoInfo] up to its [await] (lines 21-25). *)
Definition fetchVideoInfo (u : string) : M unit :=
  setLoading true ;;
  setError "" ;;
  await (PostVideoInfo u) (InFetchVideoInfo u).

(** [fetchVideoInfo] from its [await] on (lines 25-43). *)
Definition fetchVideoInfo_resume (r : Settled ResponseData) : M unit :=
  finally
    (try_catch
       (data <- settled r ;;
        (if truthy_opt (data_error data)
         then throw (StringOf (data_error data))
         else ret tt) ;;
        setVideoInfo (Some data))
       (fun message =>
          setError ("Error fetching video info: " ++ message) ;;
          toast_error ("Invalid URL: " ++ message)))
    (setLoading false).

(** [videoInfo?.title]. *)
Definition title_of (v : option ResponseData) : option string :=
  match v with
  | Some info => data_title info
  | None => None
  end.

(** [handleDownload] up to its [await] (lines 46-60); [url] and
    [videoInfo] are the values of the render the handler belongs to, and
    stay so in its closure whatever is set meanwhile. *)
Definition handleDownload : M unit :=
  s <- get ;;
  if negb (truthy_string (url s)) || negb (truthy_opt (title_of (videoInfo s)))
  then
    setError "URL and video title are required" ;;
    toast_error "URL and video title are required"
  else
    setLoading true ;;
    setError "" ;;
    setProgress (of_Z 0) ;;
    setEstimatedTime None ;;
    setVideoInfo None ;;
    await (PostDownload (url s) (title_of (videoInfo s)))
          (InHandleDownload (url s) (videoInfo s)).

(** [elapsedTime] of line 77; [now1] and [now2] are the two readings of
    the clock, the second taken only when [startTime] is falsy. *)
Definition elapsedTime (ev : ProgressEvent) (now1 now2 : number) : number :=
  div (sub now1 (or_default (startTime ev) now2)) (of_Z 1000).

(** [remainingTime] of lines 78-79. *)
Definition remainingTime (ev : ProgressEvent) (now1 now2 : number) : number :=
  let total := or_default (total ev) (of_Z 0) in
  let current := loaded ev in
  let elapsedTime := elapsedTime ev now1 now2 in
  let totalTime := div elapsedTime (div current total) in
  Math_max (sub totalTime elapsedTime) (of_Z 0).

(** [percent] of line 71. *)
Definition percent (ev : ProgressEvent) : number :=
  let total := or_default (total ev) (of_Z 0) in
  let current := loaded ev in
  Math_floor (mul (div current total) (of_Z 100)).

(** [onDownloadProgress] (lines 68-82). *)
Definition onDownloadProgress (ev : ProgressEvent) (now1 now2 : number) : M unit :=
  let total := or_default (total ev) (of_Z 0) in
  setProgress (percent ev) ;;
  if gt total (of_Z 0)
  then setEstimatedTime (Some (formatTime (remainingTime ev now1 now2)))
  else ret tt.

(** [filename] of line 87; [undefined] when the header has no
    [filename=], and a TypeError when the captured [videoInfo] is [null]. *)
Definition filename_of (info : option ResponseData) (response : DownloadResponse)
  : M (option string) :=
  if truthy_opt (content_disposition response)
  then ret (nth_error (split "filename=" (StringOf (content_disposition response))) 1)
  else
    match info with
    | Some i => ret (Some (StringOf (data_title i) ++ ".mp4"))
    | None => throw "Cannot read properties of null (reading 'title')"
    end.

(** [handleDownload] from its [await] on (lines 60-113); [u] and [info]
    are the [url] and [videoInfo] its closure captured.  Lines 93-100 hand
    the blob to the browser under [filename]. *)
Definition handleDownload_resume (u : string) (info : option ResponseData)
           (r : Settled DownloadResponse) : M unit :=
  finally
    (try_catch
       (response <- settled r ;;
        filename <- filename_of info response ;;
        (if N.eqb (size response) 0
         then throw "Received empty file"
         else ret tt) ;;
        save_file (StringOf filename) (size response) ;;
        fetchVideoInfo u ;;
        toast_success "Download completed successfully!")
       (fun message =>
          setError ("Error downloading video: " ++ message) ;;
          toast_error ("Error downloading video: " ++ message)))
    (setLoading false).

(** [handlePaste] up to its [await] (lines 116-118). *)
Definition handlePaste : M unit := await ReadClipboard InHandlePaste.

(** [handlePaste] from its [await] on (lines 118-122). *)
Definition handlePaste_resume (r : Settled string) : M unit :=
  try_catch
    (clipboardText <- settled r ;;
     setUrl clipboardText)
    (fun _ => toast_error "Failed to paste from clipboard").

(** [handleClear] (lines 125-131). *)
Definition handleClear : M unit :=
  setUrl "" ;;
  setVideoInfo None ;;
  setError "" ;;
  setProgress (of_Z 0) ;;
  setEstimatedTime None.

(** ** The component as a reactive system *)

(** What the environment can do to the mounted component. *)
Inductive Event : Type :=
| Change (value : string)
| ClickPaste
| ClickDownload
| ClickClear
| ClipboardSettled (id : nat) (r : Settled string)
| VideoInfoSettled (id : nat) (r : Settled ResponseData)
| DownloadProgress (id : nat) (ev : ProgressEvent) (now1 now2 : number)
| DownloadSettled (id : nat) (r : Settled DownloadResponse).

Definition exec (c : M unit) (w : World) : World := snd (c w).

Fixpoint lookup (id : nat) (l : list (nat * Suspended)) : option Suspended :=
  match l with
  | [] => None
  | (i, k) :: l' => if Nat.eqb i id then Some k else lookup id l'
  end.

Fixpoint remove (id : nat) (l : list (nat * Suspended)) : list (nat * Suspended) :=
  match l with
  | [] => []
  | (i, k) :: l' => if Nat.eqb i id then l' else (i, k) :: remove id l'
  end.

(** The suspended call [id] leaves the in-flight list... *)
Definition retire (id : nat) (w : World) : World :=
  {| state := state w; trace := trace w;
     inflight := remove id (inflight w); fresh := fresh w |}.

(** ... and runs on. *)
Definition wake (id : nat) (c : M unit) (w : World) : World :=
  exec c (retire id w).

(** The handler an event runs.  The Download button is [disabled] while
    [loading] (line 168), so a click on it then runs nothing; a settlement
    or progress callback for a call that is not suspended runs nothing. *)
Definition dispatch (w : World) (ev : Event) : World :=
  match ev with
  | Change value => exec (setUrl value) w
  | ClickPaste => exec handlePaste w
  | ClickDownload => if loading (state w) then w else exec handleDownload w
  | ClickClear => exec handleClear w
  | ClipboardSettled id r =>
      match lookup id (inflight w) with
      | Some InHandlePaste => wake id (handlePaste_resume r) w
      | _ => w
      end
  | VideoInfoSettled id r =>
      match lookup id (inflight w) with
      | Some (InFetchVideoInfo _) => wake id (fetchVideoInfo_resume r) w
      | _ => w
      end
  | DownloadProgress id ev now1 now2 =>
      match lookup id (inflight w) with
      | Some (InHandleDownload _ _) => exec (onDownloadProgress ev now1 now2) w
      | _ => w
      end
  | DownloadSettled id r =>
      match lookup id (inflight w) with
      | Some (InHandleDownload u info) => wake id (handleDownload_resume u info r) w
      | _ => w
      end
  end.

(** The effect of lines 15-19: after a render in which [url] changed, a
    non-empty [url] is fetched. *)
Definition useEffect_url (before : string) (w : World) : World :=
  if String.eqb before (url (state w)) then w
  else if truthy_string (url (state w)) then exec (fetchVideoInfo (url (state w))) w
  else w.

Definition step (w : World) (ev : Event) : World :=
  useEffect_url (url (state w)) (dispatch w ev).

Definition run (w : World) (evs : list Event) : World := fold_left step evs w.

(** ** What is rendered (lines 139-196) *)

(** The parts of the returned tree that depend on the state cells. *)
Record View := mkView {
  input_value : string;
  preview : option (option string * string);
  download_disabled : bool;
  download_label : string;
  eta_line : option string;
  error_line : option string
}.

(** The text a JSX child [{v}] contributes for a possibly [undefined]
    string: nothing when it is [undefined]. *)
Definition child_text (o : option string) : string :=
  match o with
  | Some s => s
  | None => ""
  end.

(** The return of the component: the input shows [url] (line 147); the
    thumbnail and title are there when [videoInfo] is not [null] (lines
    158-164); the Download button is disabled while [loading] and then reads
    "Processing... <progress>%" (lines 168-178); the estimate and the error
    are there when they are truthy (lines 187-192). *)
Definition render (s : State) : View :=
  {| input_value := url s;
     preview :=
       match videoInfo s with
       | Some info => Some (data_thumbnail info, child_text (data_title info))
       | None => None
       end;
     download_disabled := loading s;
     download_label :=
       if loading s
       then "Processing... " ++ ToString (progress s) ++ "%"
       else "Download Video";
     eta_line :=
       if truthy_opt (estimatedTime s)
       then Some ("Estimated Time Left: " ++ StringOf (estimatedTime s))
       else None;
     error_line :=
       if truthy_string (error s) then Some (error s) else None |}.

End VideoDownloader.

(* ================================================================== *)
(** * Properties *)
(* ================================================================== *)

Import JS VideoDownloader.
Local Open Scope string_scope.
Unset Implicit Arguments.

(** ** Vocabulary of the statements *)

(** The actions done between the world [w] and a later world [w']. *)
Definition since (w w' : World) : list Action :=
  skipn (List.length (trace w)) (trace w').

(** The actions a piece of handler code adds to the trace of [w]. *)
Definition emitted (c : M unit) (w : World) : list Action :=
  since w (exec c w).

(** The message with which a [/video-info] settlement fails, if it does:
    the rejection's, or the truthy [error] field of the body. *)
Definition fetch_failure (r : Settled ResponseData) : option string :=
  match r with
  | Rejected m => Some m
  | Resolved data =>
      if truthy_opt (data_error data) then data_error data else None
  end.

(** The precondition of line 47. *)
Definition download_allowed (s : State) : bool :=
  truthy_string (url s) && truthy_opt (title_of (videoInfo s)).

(** The message with which the rest of [handleDownload] fails, if it does:
    the rejection's, the TypeError of line 87, or that of line 90. *)
Definition download_failure (info : option ResponseData) (r : Settled DownloadResponse)
  : option string :=
  match r with
  | Rejected m => Some m
  | Resolved response =>
      if negb (truthy_opt (content_disposition response))
         && match info with None => true | Some _ => false end
      then Some "Cannot read properties of null (reading 'title')"
      else if N.eqb (size response) 0 then Some "Received empty file"
      else None
  end.

(** The name under which the blob is saved. *)
Definition saved_name (info : option ResponseData) (response : DownloadResponse) : string :=
  if truthy_opt (content_disposition response)
  then StringOf (nth_error (split "filename=" (StringOf (content_disposition response))) 1)
  else StringOf (title_of info) ++ ".mp4".

(** The metadata of the specification's scenario. *)
Definition demo_info : ResponseData :=
  {| data_error := None; data_title := Some "Demo";
     data_thumbnail := Some "http://host/t.jpg" |}.

(** A progress event of a transfer of 1,000,000 bytes. *)
Definition chunk (l : Z) : ProgressEvent :=
  {| loaded := of_Z l; total := Some (of_Z 1000000); startTime := None |}.

(** The scenario of the specification: metadata, then a download of
    1,000,000 bytes in four chunks, saved as "Demo.mp4", then the refresh. *)
Definition scenario : list Event :=
  [ Change "http://host/v";
    VideoInfoSettled 0 (Resolved demo_info);
    ClickDownload;
    DownloadProgress 1 (chunk 250000) (of_Z 1000) (of_Z 1000);
    DownloadProgress 1 (chunk 500000) (of_Z 2000) (of_Z 2000);
    DownloadProgress 1 (chunk 750000) (of_Z 3000) (of_Z 3000);
    DownloadProgress 1 (chunk 1000000) (of_Z 4000) (of_Z 4000);
    DownloadSettled 1 (Resolved {| content_disposition := None; size := 1000000 |}) ].

(** The values written to [progress], in order. *)
Definition is_progress (a : Action) : option number :=
  match a with
  | SetProgress p => Some p
  | _ => None
  end.

Fixpoint progress_values (l : list Action) : list number :=
  match l with
  | [] => []
  | a :: l' =>
      match is_progress a with
      | Some p => p :: progress_values l'
      | None => progress_values l'
      end
  end.

(** Minutes and seconds of a whole number of seconds, nothing clamped: the
    quotient by sixty rounded down, and the remainder with the sign of the
    dividend. *)
Definition formatTime_spec (n : Z) : string :=
  digits_of (n / 60) ++ "m " ++ digits_of (Z.rem n 60) ++ "s".

(** [formatTime] agrees with it on [i - 3599] seconds. *)
Definition formatTime_agrees (i : nat) : bool :=
  let n := (Z.of_nat i - 3599)%Z in
  String.eqb (formatTime (of_Z n)) (formatTime_spec n).

(** A progress event that carries no total. *)
Definition unknown (l : Z) : ProgressEvent :=
  {| loaded := of_Z l; total := None; startTime := None |}.

(** The actions that are HTTP requests. *)
Definition is_request (a : Action) : bool :=
  match a with
  | PostVideoInfo _ | PostDownload _ _ => true
  | _ => false
  end.

(** The metadata of a video titled "MyClip". *)
Definition MyClip : ResponseData :=
  {| data_error := None; data_title := Some "MyClip"; data_thumbnail := None |}.

(** The component showing the metadata of "MyClip"... *)
Definition ready_MyClip : World :=
  run start [Change "http://host/v"; VideoInfoSettled 0 (Resolved MyClip)].

(** ... and then downloading it. *)
Definition downloading_MyClip : World := step ready_MyClip ClickDownload.

(** A [SaveFile] action is for a blob that has bytes. *)
Definition saves_bytes (a : Action) : bool :=
  match a with
  | SaveFile _ bytes => negb (N.eqb bytes 0)
  | _ => true
  end.

(** [w'] continues the trace of [w] with actions that save no empty
    file. *)
Definition continues (w w' : World) : Prop :=
  exists l, trace w' = (trace w ++ l)%list /\ forallb saves_bytes l = true.

(** What line 47 has checked of the variables a suspended
    [handleDownload] holds. *)
Definition closure_ok (k : Suspended) : bool :=
  match k with
  | InHandleDownload u info => truthy_string u && truthy_opt (title_of info)
  | _ => true
  end.

(** In-flight calls have distinct identifiers below [n], and sound
    closures. *)
Definition well_formed_list (n : nat) (l : list (nat * Suspended)) : Prop :=
  NoDup (map fst l)
  /\ Forall (fun p => fst p < n /\ closure_ok (snd p) = true) l.

Definition well_formed (w : World) : Prop :=
  well_formed_list (fresh w) (inflight w).

(** The percent of [l] bytes out of [t] is between 0 and 100. *)
Definition percent_in_range (t l : nat) : bool :=
  let p := percent {| loaded := of_Z (Z.of_nat l);
                      total := Some (of_Z (Z.of_nat t));
                      startTime := None |} in
  le (of_Z 0) p && le p (of_Z 100).

Definition percent_in_range_upto (t : nat) : bool :=
  forallb (percent_in_range t) (seq 0 (S t)).

(** A request that carries what the server needs: a [/video-info] request
    a non-empty [url], a [/download] request a non-empty [url] and a
    non-empty [title]. *)
Definition request_ok (a : Action) : bool :=
  match a with
  | PostVideoInfo u => truthy_string u
  | PostDownload u title => truthy_string u && truthy_opt title
  | _ => true
  end.

(** [w'] continues the trace of [w] with actions that all satisfy [P]. *)
Definition extends_with (P : Action -> bool) (w w' : World) : Prop :=
  exists l, trace w' = (trace w ++ l)%list /\ forallb P l = true.

(** [sep] occurs in [s]. *)
Fixpoint occurs (sep s : string) : bool :=
  match s with
  | EmptyString => prefix sep s
  | String _ s' => prefix sep s || occurs sep s'
  end.

(** [sep] occurs in [pre ++ rest] from a position inside [pre]. *)
Fixpoint starts_within (sep pre rest : string) : bool :=
  match pre with
  | EmptyString => false
  | String _ pre' => prefix sep (pre ++ rest) || starts_within sep pre' rest
  end.

(** The events whose handler calls [setUrl]. *)
Definition edits_url (ev : Event) : bool :=
  match ev with
  | Change _ | ClickClear | ClipboardSettled _ (Resolved _) => true
  | _ => false
  end.

(** The events whose handler may call [setVideoInfo]. *)
Definition edits_videoInfo (ev : Event) : bool :=
  match ev with
  | ClickDownload | ClickClear | VideoInfoSettled _ (Resolved _) => true
  | _ => false
  end.

(** A Content-Disposition header as servers send it, name in quotes. *)
Definition quoted_header : string :=
  "attachment; filename=" ++ String (ascii_of_nat 34) ("clip.mp4" ++ String (ascii_of_nat 34) "").

(** A number of quarter seconds, as a Number of seconds. *)
Definition quarters (q : Z) : number := div (of_Z q) (of_Z 4).

(** Minutes and seconds of [q] quarter seconds, nothing clamped and both
    rounded down. *)
Definition formatTime_quarters_spec (q : Z) : string :=
  digits_of (q / 240) ++ "m " ++ digits_of (Z.rem q 240 / 4) ++ "s".

(** [formatTime] agrees with it on [i - 1199] quarter seconds. *)
Definition formatTime_quarters_agrees (i : nat) : bool :=
  let q := (Z.of_nat i - 1199)%Z in
  String.eqb (formatTime (quarters q)) (formatTime_quarters_spec q).

(** The remaining time of lines 77-79 when the elapsed time is measured
    from [start]: [max(elapsed / (loaded / total) - elapsed, 0)] with
    [elapsed = (now - start) / 1000]. *)
Definition eta_from (start now loaded total : number) : number :=
  let elapsed := div (sub now start) (of_Z 1000) in
  Math_max (sub (div elapsed (div loaded total)) elapsed) (of_Z 0).

(** The event carries a [startTime] that line 77 uses. *)
Definition has_startTime (ev : ProgressEvent) : bool :=
  match startTime ev with
  | Some st => truthy st
  | None => false
  end.

(** A progress event before any byte has arrived. *)
Definition nothing_loaded : ProgressEvent :=
  {| loaded := of_Z 0; total := Some (of_Z 1000000); startTime := None |}.




(** ** Unfolding handler code *)

Ltac unfold_handlers :=
  cbv [exec wake retire handleDownload handleDownload_resume fetchVideoInfo
       fetchVideoInfo_resume handleClear handlePaste handlePaste_resume
       onDownloadProgress filename_of settled finally try_catch bind ret
       throw get act await setUrl setError setLoading setVideoInfo
       setProgress setEstimatedTime toast_error toast_success save_file
       lookup remove Nat.eqb N.eqb title_of truthy_opt truthy_string negb orb
       snd fst state trace inflight fresh url error loading videoInfo
       progress estimatedTime data_error data_title data_thumbnail
       content_disposition size].

(** A world taken apart into its cells, so that handler code runs on it by
    computation. *)
Ltac open_world w :=
  destruct w as [[w_url w_error w_loading w_videoInfo w_progress w_eta]
                   w_trace w_inflight w_fresh];
  cbn [state trace inflight fresh url error loading videoInfo progress
       estimatedTime] in *.

(** The cells of a world written out are read off. *)
Ltac world_cells :=
  unfold retire;
  cbn [state trace inflight fresh url error loading videoInfo progress
       estimatedTime app remove lookup Nat.eqb].

Ltac flatten_trace := repeat rewrite <- app_assoc; cbn [app].

Lemma skipn_length_app (A : Type) (l l' : list A) :
  skipn (List.length l) (l ++ l') = l'.
Proof. induction l as [|a l IH]; [reflexivity | exact IH]. Qed.

(** ** What each handler does to a world *)

Ltac handler_eq := unfold_handlers; flatten_trace; reflexivity.

Lemma exec_fetchVideoInfo (u : string) (w : World) :
  exec (fetchVideoInfo u) w
  = {| state := {| url := url (state w); error := ""; loading := true;
                   videoInfo := videoInfo (state w);
                   progress := progress (state w);
                   estimatedTime := estimatedTime (state w) |};
       trace := trace w ++ [SetLoading true; SetError ""; PostVideoInfo u];
       inflight := inflight w ++ [(fresh w, InFetchVideoInfo u)];
       fresh := S (fresh w) |}.
Proof. open_world w. handler_eq. Qed.

Lemma exec_fetchVideoInfo_resume_stored (data : ResponseData) (w : World) :
  truthy_opt (data_error data) = false ->
  exec (fetchVideoInfo_resume (Resolved data)) w
  = {| state := {| url := url (state w); error := error (state w);
                   loading := false; videoInfo := Some data;
                   progress := progress (state w);
                   estimatedTime := estimatedTime (state w) |};
       trace := trace w ++ [SetVideoInfo (Some data); SetLoading false];
       inflight := inflight w; fresh := fresh w |}.
Proof.
  intros H. open_world w.
  destruct data as [[[|c e]|] t th]; try discriminate H; handler_eq.
Qed.

Lemma exec_fetchVideoInfo_resume_failed (r : Settled ResponseData) (m : string) (w : World) :
  fetch_failure r = Some m ->
  exec (fetchVideoInfo_resume r) w
  = {| state := {| url := url (state w);
                   error := "Error fetching video info: " ++ m;
                   loading := false; videoInfo := videoInfo (state w);
                   progress := progress (state w);
                   estimatedTime := estimatedTime (state w) |};
       trace := trace w ++ [SetError ("Error fetching video info: " ++ m);
                            ToastError ("Invalid URL: " ++ m);
                            SetLoading false];
       inflight := inflight w; fresh := fresh w |}.
Proof.
  intros H. open_world w.
  destruct r as [[[[|c e]|] t th]|m']; try discriminate H;
    injection H as <-; handler_eq.
Qed.

Lemma exec_handleDownload_invalid (w : World) :
  download_allowed (state w) = false ->
  exec handleDownload w
  = {| state := {| url := url (state w);
                   error := "URL and video title are required";
                   loading := loading (state w);
                   videoInfo := videoInfo (state w);
                   progress := progress (state w);
                   estimatedTime := estimatedTime (state w) |};
       trace := trace w ++ [SetError "URL and video title are required";
                            ToastError "URL and video title are required"];
       inflight := inflight w; fresh := fresh w |}.
Proof.
  intros H. open_world w. unfold download_allowed in H. cbn [url videoInfo] in H.
  destruct w_url as [|c u]; [handler_eq|].
  destruct w_videoInfo as [[e [[|c' t]|] th]|]; try discriminate H; handler_eq.
Qed.

Lemma exec_handleDownload_valid (w : World) :
  download_allowed (state w) = true ->
  exec handleDownload w
  = {| state := {| url := url (state w); error := ""; loading := true;
                   videoInfo := None; progress := of_Z 0;
                   estimatedTime := None |};
       trace := trace w ++ [SetLoading true; SetError ""; SetProgress (of_Z 0);
                            SetEstimatedTime None; SetVideoInfo None;
                            PostDownload (url (state w))
                                         (title_of (videoInfo (state w)))];
       inflight := inflight w
                   ++ [(fresh w, InHandleDownload (url (state w))
                                                  (videoInfo (state w)))];
       fresh := S (fresh w) |}.
Proof.
  intros H. open_world w. unfold download_allowed in H. cbn [url videoInfo] in H.
  destruct w_url as [|c u]; [discriminate H|].
  destruct w_videoInfo as [[e [[|c' t]|] th]|]; try discriminate H; handler_eq.
Qed.

Lemma exec_handleDownload_resume_failed
      (u : string) (info : option ResponseData) (r : Settled DownloadResponse)
      (m : string) (w : World) :
  download_failure info r = Some m ->
  exec (handleDownload_resume u info r) w
  = {| state := {| url := url (state w);
                   error := "Error downloading video: " ++ m;
                   loading := false; videoInfo := videoInfo (state w);
                   progress := progress (state w);
                   estimatedTime := estimatedTime (state w) |};
       trace := trace w ++ [SetError ("Error downloading video: " ++ m);
                            ToastError ("Error downloading video: " ++ m);
                            SetLoading false];
       inflight := inflight w; fresh := fresh w |}.
Proof.
  intros H. open_world w.
  destruct r as [[[[|c h]|] [|n]]|m']; destruct info as [i|];
    try discriminate H; injection H as <-; handler_eq.
Qed.

Lemma exec_handleDownload_resume_saved
      (u : string) (info : option ResponseData) (response : DownloadResponse)
      (w : World) :
  download_failure info (Resolved response) = None ->
  exec (handleDownload_resume u info (Resolved response)) w
  = {| state := {| url := url (state w); error := ""; loading := false;
                   videoInfo := videoInfo (state w);
                   progress := progress (state w);
                   estimatedTime := estimatedTime (state w) |};
       trace := trace w ++ [SaveFile (saved_name info response) (size response);
                            SetLoading true; SetError ""; PostVideoInfo u;
                            ToastSuccess "Download completed successfully!";
                            SetLoading false];
       inflight := inflight w ++ [(fresh w, InFetchVideoInfo u)];
       fresh := S (fresh w) |}.
Proof.
  intros H. open_world w.
  destruct response as [[[|c h]|] [|n]]; destruct info as [[e t th]|];
    try discriminate H; unfold saved_name; handler_eq.
Qed.

Lemma exec_onDownloadProgress (ev : ProgressEvent) (now1 now2 : number) (w : World) :
  exec (onDownloadProgress ev now1 now2) w
  = {| state := {| url := url (state w); error := error (state w);
                   loading := loading (state w);
                   videoInfo := videoInfo (state w);
                   progress := percent ev;
                   estimatedTime :=
                     if gt (or_default (total ev) (of_Z 0)) (of_Z 0)
                     then Some (formatTime (remainingTime ev now1 now2))
                     else estimatedTime (state w) |};
       trace := trace w
                ++ SetProgress (percent ev)
                   :: (if gt (or_default (total ev) (of_Z 0)) (of_Z 0)
                       then [SetEstimatedTime
                               (Some (formatTime (remainingTime ev now1 now2)))]
                       else []);
       inflight := inflight w; fresh := fresh w |}.
Proof.
  open_world w. unfold_handlers.
  destruct (gt (or_default (total ev) (of_Z 0)) (of_Z 0)); flatten_trace; reflexivity.
Qed.

Lemma exec_handleClear (w : World) :
  exec handleClear w
  = {| state := {| url := ""; error := ""; loading := loading (state w);
                   videoInfo := None; progress := of_Z 0;
                   estimatedTime := None |};
       trace := trace w ++ [SetUrl ""; SetVideoInfo None; SetError "";
                            SetProgress (of_Z 0); SetEstimatedTime None];
       inflight := inflight w; fresh := fresh w |}.
Proof. open_world w. handler_eq. Qed.

(** A render that leaves [url] as it was runs no effect. *)
Lemma useEffect_url_unchanged (before : string) (w : World) :
  url (state w) = before -> useEffect_url before w = w.
Proof. intros <-. unfold useEffect_url. now rewrite String.eqb_refl. Qed.

Lemma since_app (w w' : World) (l : list Action) :
  trace w' = (trace w ++ l)%list -> since w w' = l.
Proof. unfold since. intros ->. apply skipn_length_app. Qed.

(** ** What each event does to a world *)

Lemma url_fetchVideoInfo_resume (r : Settled ResponseData) (w : World) :
  url (state (exec (fetchVideoInfo_resume r) w)) = url (state w).
Proof.
  destruct (fetch_failure r) as [m|] eqn:E.
  - now rewrite (exec_fetchVideoInfo_resume_failed r m w E).
  - destruct r as [data|m]; [|discriminate E].
    rewrite exec_fetchVideoInfo_resume_stored; [reflexivity|].
    unfold fetch_failure in E.
    destruct (truthy_opt (data_error data)) eqn:T; [|reflexivity].
    destruct (data_error data); [discriminate E | discriminate T].
Qed.

Lemma url_handleDownload_resume
      (u : string) (info : option ResponseData) (r : Settled DownloadResponse)
      (w : World) :
  url (state (exec (handleDownload_resume u info r) w)) = url (state w).
Proof.
  destruct (download_failure info r) as [m|] eqn:E.
  - now rewrite (exec_handleDownload_resume_failed u info r m w E).
  - destruct r as [response|m]; [|discriminate E].
    now rewrite exec_handleDownload_resume_saved.
Qed.

Lemma url_handleDownload (w : World) :
  url (state (exec handleDownload w)) = url (state w).
Proof.
  destruct (download_allowed (state w)) eqn:E.
  - now rewrite exec_handleDownload_valid.
  - now rewrite exec_handleDownload_invalid.
Qed.

Lemma step_Change_fetches (u : string) (w : World) :
  String.eqb (url (state w)) u = false ->
  u <> "" ->
  step w (Change u)
  = {| state := {| url := u; error := ""; loading := true;
                   videoInfo := videoInfo (state w);
                   progress := progress (state w);
                   estimatedTime := estimatedTime (state w) |};
       trace := trace w ++ [SetUrl u; SetLoading true; SetError "";
                            PostVideoInfo u];
       inflight := inflight w ++ [(fresh w, InFetchVideoInfo u)];
       fresh := S (fresh w) |}.
Proof.
  intros Hne Hu. open_world w.
  destruct u as [|c u]; [congruence|].
  unfold step, dispatch, useEffect_url. unfold_handlers.
  rewrite Hne. flatten_trace. reflexivity.
Qed.

Lemma step_VideoInfoSettled (id : nat) (u : string) (r : Settled ResponseData) (w : World) :
  lookup id (inflight w) = Some (InFetchVideoInfo u) ->
  step w (VideoInfoSettled id r) = exec (fetchVideoInfo_resume r) (retire id w).
Proof.
  intros H. unfold step, dispatch, wake. rewrite H.
  apply useEffect_url_unchanged.
  exact (url_fetchVideoInfo_resume r (retire id w)).
Qed.

Lemma step_DownloadSettled
      (id : nat) (u : string) (info : option ResponseData)
      (r : Settled DownloadResponse) (w : World) :
  lookup id (inflight w) = Some (InHandleDownload u info) ->
  step w (DownloadSettled id r) = exec (handleDownload_resume u info r) (retire id w).
Proof.
  intros H. unfold step, dispatch, wake. rewrite H.
  apply useEffect_url_unchanged.
  exact (url_handleDownload_resume u info r (retire id w)).
Qed.

Lemma step_DownloadProgress
      (id : nat) (u : string) (info : option ResponseData)
      (ev : ProgressEvent) (now1 now2 : number) (w : World) :
  lookup id (inflight w) = Some (InHandleDownload u info) ->
  step w (DownloadProgress id ev now1 now2) = exec (onDownloadProgress ev now1 now2) w.
Proof.
  intros H. unfold step, dispatch. rewrite H.
  apply useEffect_url_unchanged. now rewrite exec_onDownloadProgress.
Qed.

Lemma step_ClickDownload (w : World) :
  loading (state w) = false ->
  step w ClickDownload = exec handleDownload w.
Proof.
  intros H. unfold step, dispatch. rewrite H.
  apply useEffect_url_unchanged, url_handleDownload.
Qed.

Lemma step_ClickClear (w : World) :
  step w ClickClear = exec handleClear w.
Proof.
  unfold step, dispatch, useEffect_url. rewrite exec_handleClear.
  cbn [state url]. destruct (String.eqb (url (state w)) ""); reflexivity.
Qed.

(** ** The scenario of the specification *)

Example scenario_percents :
  map ToString (progress_values (trace (run start scenario)))
  = ["0"; "25"; "50"; "75"; "100"].
Proof. vm_compute. reflexivity. Qed.

Example scenario_saved_and_refreshed :
  In (SaveFile "Demo.mp4" 1000000) (trace (run start scenario))
  /\ inflight (run start scenario) = [(2, InFetchVideoInfo "http://host/v")].
Proof. vm_compute. intuition. Qed.

(** ** formatTime *)

Example formatTime_fraction :
  formatTime (div (of_Z 1254) (of_Z 10)) = "2m 5s".
Proof. vm_compute. reflexivity. Qed.

Lemma formatTime_agrees_within_the_hour :
  forallb formatTime_agrees (seq 0 (Z.to_nat 7199)) = true.
Proof. vm_compute. reflexivity. Qed.

Lemma formatTime_whole_seconds (n : Z) :
  (-3600 < n < 3600)%Z -> formatTime (of_Z n) = formatTime_spec n.
Proof.
  intros Hn.
  pose proof formatTime_agrees_within_the_hour as H.
  rewrite forallb_forall in H.
  specialize (H (Z.to_nat (n + 3599))).
  unfold formatTime_agrees in H.
  rewrite Z2Nat.id in H by lia.
  replace (n + 3599 - 3599)%Z with n in H by lia.
  apply String.eqb_eq, H, in_seq. lia.
Qed.

(** C4 (counterexample).  A negative number of seconds is not clamped:
    [formatTime(-5)] is "-1m -5s", and [formatTime(NaN)] is "NaNm NaNs";
    neither is "0m 0s". *)
Lemma C4_negative_and_NaN_not_clamped :
  formatTime (of_Z (-5)) = "-1m -5s"
  /\ formatTime (of_Z (-5)) <> "0m 0s"
  /\ formatTime NaN = "NaNm NaNs"
  /\ formatTime NaN <> "0m 0s".
Proof. vm_compute. repeat split; discriminate. Qed.

Lemma formatTime_agrees_on_quarters :
  forallb formatTime_quarters_agrees (seq 0 (Z.to_nat 2399)) = true.
Proof. vm_compute. reflexivity. Qed.

Lemma formatTime_quarter_seconds (q : Z) :
  (-1200 < q < 1200)%Z -> formatTime (quarters q) = formatTime_quarters_spec q.
Proof.
  intros Hq.
  pose proof formatTime_agrees_on_quarters as H.
  rewrite forallb_forall in H.
  specialize (H (Z.to_nat (q + 1199))).
  unfold formatTime_quarters_agrees in H.
  rewrite Z2Nat.id in H by lia.
  replace (q + 1199 - 1199)%Z with q in H by lia.
  apply String.eqb_eq, H, in_seq. lia.
Qed.

(** What line 80 hands to [formatTime] is never below zero, whatever the
    event and the clock. *)
Lemma remainingTime_not_negative (ev : ProgressEvent) (now1 now2 : number) :
  lt (remainingTime ev now1 now2) (of_Z 0) = false.
Proof.
  unfold remainingTime.
  destruct (sub _ _) as [[|]|[|]| |[|] m e]; reflexivity.
Qed.

(** C4 (amended).  For every Number of seconds, [formatTime] writes
    [Math.floor(seconds / 60)] and [Math.floor(seconds % 60)] as
    "<m>m <s>s" and clamps nothing: 125 and 125.4 give "2m 5s" and 0 gives
    "0m 0s"; every whole number of seconds within an hour of zero, and every
    multiple of a quarter second within five minutes of zero, negative ones
    too, gives its quotient by sixty rounded down and its remainder, with
    its own sign, rounded down; -5 gives "-1m -5s" and NaN gives
    "NaNm NaNs".  Its caller at line 80 hands it a [Math.max(..., 0)], which
    is never below zero but is NaN when nothing is loaded and no time has
    elapsed: the estimate is then "NaNm NaNs". *)
Theorem C4_formatTime_floors_and_never_clamps :
  (forall seconds,
      formatTime seconds
      = ToString (Math_floor (div seconds (of_Z 60))) ++ "m "
        ++ ToString (Math_floor (rem seconds (of_Z 60))) ++ "s")
  /\ formatTime (of_Z 125) = "2m 5s"
  /\ formatTime (div (of_Z 1254) (of_Z 10)) = "2m 5s"
  /\ formatTime (of_Z 0) = "0m 0s"
  /\ (forall n, (-3600 < n < 3600)%Z -> formatTime (of_Z n) = formatTime_spec n)
  /\ (forall q, (-1200 < q < 1200)%Z ->
        formatTime (quarters q) = formatTime_quarters_spec q)
  /\ formatTime (of_Z (-5)) = "-1m -5s"
  /\ formatTime NaN = "NaNm NaNs"
  /\ (forall w ev now1 now2,
        gt (or_default (total ev) (of_Z 0)) (of_Z 0) = true ->
        estimatedTime (state (exec (onDownloadProgress ev now1 now2) w))
        = Some (formatTime (remainingTime ev now1 now2))
        /\ lt (remainingTime ev now1 now2) (of_Z 0) = false)
  /\ (forall w now,
        is_finite now = true ->
        remainingTime nothing_loaded now now = NaN
        /\ estimatedTime (state (exec (onDownloadProgress nothing_loaded now now) w))
           = Some "NaNm NaNs").
Proof.
  split; [reflexivity|].
  split; [vm_compute; reflexivity|].
  split; [vm_compute; reflexivity|].
  split; [vm_compute; reflexivity|].
  split; [exact formatTime_whole_seconds|].
  split; [exact formatTime_quarter_seconds|].
  split; [vm_compute; reflexivity|].
  split; [vm_compute; reflexivity|].
  split.
  - intros w ev now1 now2 Hgt. rewrite exec_onDownloadProgress, Hgt.
    split; [reflexivity | apply remainingTime_not_negative].
  - intros w now Hnow.
    assert (H : remainingTime nothing_loaded now now = NaN).
    { unfold remainingTime, elapsedTime, nothing_loaded.
      cbn [startTime total loaded or_default].
      replace (sub now now) with (of_Z 0); [reflexivity|].
      destruct now as [[|]|[|]| |s m e]; try discriminate Hnow; try reflexivity.
      unfold sub, SFsub. now rewrite Z.sub_diag. }
    split; [exact H|].
    rewrite exec_onDownloadProgress. cbn [state estimatedTime].
    now rewrite H.
Qed.

Lemma C4_formatTime_floors_and_never_clamps_witness :
  formatTime (quarters (-15)) = "-1m -4s"
  /\ estimatedTime
       (state (exec (onDownloadProgress nothing_loaded (of_Z 1700000000000)
                                        (of_Z 1700000000000))
                    downloading_MyClip))
     = Some "NaNm NaNs".
Proof.
  split.
  - apply (proj1 (proj2 (proj2 (proj2 (proj2 (proj2
             C4_formatTime_floors_and_never_clamps))))) (-15)%Z).
    lia.
  - apply (proj2 (proj2 (proj2 (proj2 (proj2 (proj2 (proj2 (proj2 (proj2
             C4_formatTime_floors_and_never_clamps)))))))) 
             downloading_MyClip (of_Z 1700000000000) eq_refl).
Defined.

(** ** Percent *)

(** A progress event whose [total] is absent, zero or NaN never gives a
    finite percent, whatever [loaded] is: line 71 divides by zero. *)
Lemma percent_unknown_total (ev : ProgressEvent) :
  or_default (total ev) (of_Z 0) = of_Z 0 ->
  is_finite (percent ev) = false.
Proof.
  unfold percent. intros ->.
  destruct (loaded ev) as [s|s| |s m e]; reflexivity.
Qed.

(** With a total of at most 100 bytes and no more bytes loaded than that,
    the percent of line 71 is between 0 and 100.  It is computed in binary64
    and can be one below the exact quotient: 29 bytes of 100 give 28. *)
Lemma percent_in_range_small_totals :
  forallb percent_in_range_upto (seq 1 100) = true.
Proof. vm_compute. reflexivity. Qed.

Lemma percent_between_0_and_100 (l t : Z) :
  (0 < t <= 100)%Z -> (0 <= l <= t)%Z ->
  let p := percent {| loaded := of_Z l; total := Some (of_Z t); startTime := None |} in
  le (of_Z 0) p = true /\ le p (of_Z 100) = true.
Proof.
  intros Ht Hl.
  pose proof percent_in_range_small_totals as H.
  rewrite forallb_forall in H.
  specialize (H (Z.to_nat t)). unfold percent_in_range_upto in H.
  rewrite forallb_forall in H.
  specialize (H ltac:(apply in_seq; lia) (Z.to_nat l) ltac:(apply in_seq; lia)).
  unfold percent_in_range in H. rewrite !Z2Nat.id in H by lia.
  now apply andb_true_iff in H.
Qed.

Example percent_29_of_100 :
  ToString (percent {| loaded := of_Z 29; total := Some (of_Z 100); startTime := None |})
  = "28".
Proof. vm_compute. reflexivity. Qed.

(** C1 (failing input).  On a progress event without a total, line 71
    divides by zero and line 73 stores the result: [Infinity] for 1000 bytes
    loaded, NaN for none. *)
Theorem C1_percent_divides_by_zero :
  percent (unknown 1000) = Infinity
  /\ percent (unknown 0) = NaN
  /\ (forall w now,
        progress (state (exec (onDownloadProgress (unknown 1000) now now) w))
        = Infinity)
  /\ (forall w now,
        emitted (onDownloadProgress (unknown 0) now now) w = [SetProgress NaN]).
Proof.
  split; [reflexivity|]. split; [reflexivity|]. split.
  - intros w now. now rewrite exec_onDownloadProgress.
  - intros w now. apply since_app. now rewrite exec_onDownloadProgress.
Qed.

(** ** Clear *)

(** C9 (counterexample).  Clear pressed while the metadata fetch of a URL
    just typed is in flight: every cell is back at its initial value except
    [loading], which is still [true]. *)
Lemma C9_clear_keeps_loading :
  let w := run start [Change "https://a"; ClickClear] in
  loading (state w) = true
  /\ loading (state w) <> loading initial
  /\ state w <> initial.
Proof. vm_compute. repeat split; discriminate. Qed.

(** C9 (amended).  Clear sets [url] to empty, [videoInfo] to absent,
    [error] to empty, [progress] to 0 and [estimatedTime] to absent, and
    leaves [loading] as it was; it issues no request and cancels none.  So
    the cells are all back at their initial values after Clear exactly when
    [loading] was [false] before it. *)
Theorem C9_clear_resets_all_but_loading (w : World) :
  state (step w ClickClear)
  = {| url := ""; error := ""; loading := loading (state w);
       videoInfo := None; progress := of_Z 0; estimatedTime := None |}
  /\ inflight (step w ClickClear) = inflight w
  /\ since w (step w ClickClear)
     = [SetUrl ""; SetVideoInfo None; SetError ""; SetProgress (of_Z 0);
        SetEstimatedTime None]
  /\ (state (step w ClickClear) = initial <-> loading (state w) = false).
Proof.
  rewrite step_ClickClear, exec_handleClear.
  split; [reflexivity|]. split; [reflexivity|]. split; [now apply since_app|].
  cbn [state]. unfold initial. split.
  - intros H. now injection H.
  - intros ->. reflexivity.
Qed.

(** ** The metadata fetch *)

(** A response without an error field is stored, whatever [url] holds when
    it arrives and whichever call it answers. *)
Lemma response_always_stored (w : World) (id : nat) (u : string) (data : ResponseData) :
  lookup id (inflight w) = Some (InFetchVideoInfo u) ->
  truthy_opt (data_error data) = false ->
  videoInfo (state (step w (VideoInfoSettled id (Resolved data)))) = Some data
  /\ url (state (step w (VideoInfoSettled id (Resolved data)))) = url (state w).
Proof.
  intros Hid Herr.
  rewrite (step_VideoInfoSettled id u _ w Hid).
  rewrite (exec_fetchVideoInfo_resume_stored data _ Herr).
  split; reflexivity.
Qed.

(** C3 (counterexample).  Fetches are issued for "https://a" and then for
    "https://b"; the response for "https://b" arrives first.  The session
    ends with [url] "https://b" and the metadata of "https://a". *)
Lemma C3_stale_response_wins :
  let dA := {| data_error := None; data_title := Some "A"; data_thumbnail := None |} in
  let dB := {| data_error := None; data_title := Some "B"; data_thumbnail := None |} in
  let w := run start [ Change "https://a"; Change "https://b";
                       VideoInfoSettled 1 (Resolved dB);
                       VideoInfoSettled 0 (Resolved dA) ] in
  url (state w) = "https://b"
  /\ videoInfo (state w) = Some dA
  /\ videoInfo (state w) <> Some dB.
Proof. vm_compute. repeat split; discriminate. Qed.

(** C3 (amended).  Fetches issued for URL A and then for URL B, B's
    response arriving before A's: the session ends with [url] B and A's
    metadata.  No call is tagged; the response that arrives last is the one
    kept. *)
Theorem C3_last_response_wins (A B : string) (dA dB : ResponseData) :
  A <> "" -> B <> "" -> A <> B ->
  truthy_opt (data_error dA) = false ->
  truthy_opt (data_error dB) = false ->
  let w := run start [ Change A; Change B;
                       VideoInfoSettled 1 (Resolved dB);
                       VideoInfoSettled 0 (Resolved dA) ] in
  url (state w) = B /\ videoInfo (state w) = Some dA /\ inflight w = [].
Proof.
  intros HA HB HAB HdA HdB w. subst w.
  unfold run, start, initial. cbn [fold_left].
  rewrite (step_Change_fetches A)
    by first [assumption | destruct A; [congruence | reflexivity]].
  world_cells.
  rewrite (step_Change_fetches B)
    by first [assumption | now apply String.eqb_neq].
  world_cells.
  match goal with
  | |- context [step ?w (VideoInfoSettled 1 ?r)] =>
      rewrite (step_VideoInfoSettled 1 B r w eq_refl)
  end.
  rewrite (exec_fetchVideoInfo_resume_stored dB _ HdB).
  world_cells.
  match goal with
  | |- context [step ?w (VideoInfoSettled 0 ?r)] =>
      rewrite (step_VideoInfoSettled 0 A r w eq_refl)
  end.
  rewrite (exec_fetchVideoInfo_resume_stored dA _ HdA).
  world_cells.
  repeat split.
Qed.

Lemma C3_last_response_wins_witness :
  let dA := {| data_error := None; data_title := Some "A"; data_thumbnail := None |} in
  let dB := {| data_error := None; data_title := Some "B"; data_thumbnail := None |} in
  let w := run start [ Change "https://a"; Change "https://b";
                       VideoInfoSettled 1 (Resolved dB);
                       VideoInfoSettled 0 (Resolved dA) ] in
  url (state w) = "https://b" /\ videoInfo (state w) = Some dA /\ inflight w = [].
Proof.
  intros dA dB.
  apply (C3_last_response_wins "https://a" "https://b" dA dB);
    try discriminate; reflexivity.
Defined.

(** ** The download *)

(** C5.  With an empty [url], or no title, or an empty title,
    [handleDownload] stores the validation message in [error] and hands it
    to [toast.error], and does nothing else: no request is made and nothing
    is left in flight.  A failure of the request itself, or of the lines
    after it, goes the same two ways. *)
Theorem C5_validation_fails_fast (w : World) :
  url (state w) = ""
  \/ title_of (videoInfo (state w)) = None
  \/ title_of (videoInfo (state w)) = Some "" ->
  let w' := exec handleDownload w in
  since w w' = [SetError "URL and video title are required";
                ToastError "URL and video title are required"]
  /\ existsb is_request (since w w') = false
  /\ inflight w' = inflight w
  /\ error (state w') = "URL and video title are required"
  /\ (forall u info r m w0,
        download_failure info r = Some m ->
        let w1 := exec (handleDownload_resume u info r) w0 in
        since w0 w1 = [SetError ("Error downloading video: " ++ m);
                       ToastError ("Error downloading video: " ++ m);
                       SetLoading false]
        /\ error (state w1) = "Error downloading video: " ++ m).
Proof.
  intros H w'.
  assert (Hinv : download_allowed (state w) = false).
  { unfold download_allowed.
    destruct H as [-> | [-> | ->]]; [reflexivity | | ];
      now destruct (truthy_string (url (state w))). }
  assert (Hs : since w w' = [SetError "URL and video title are required";
                             ToastError "URL and video title are required"]).
  { apply since_app. subst w'. now rewrite (exec_handleDownload_invalid w Hinv). }
  split; [exact Hs|]. split; [now rewrite Hs|].
  subst w'. rewrite (exec_handleDownload_invalid w Hinv).
  split; [reflexivity|]. split; [reflexivity|].
  intros u info r m w0 Hf w1. subst w1.
  rewrite (exec_handleDownload_resume_failed u info r m w0 Hf).
  split; [now apply since_app | reflexivity].
Qed.

Lemma C5_validation_fails_fast_witness :
  let w := run start [Change "https://a"] in
  since w (exec handleDownload w)
  = [SetError "URL and video title are required";
     ToastError "URL and video title are required"].
Proof.
  intros w.
  apply (C5_validation_fails_fast w). right. left. reflexivity.
Defined.

(** C2.  A download in flight for a metadata title [t], settled by a
    response without a Content-Disposition header and with bytes in it: the
    blob is saved as [t] followed by ".mp4", the success toast is shown and
    no error is stored. *)
Theorem C2_filename_falls_back_to_title
        (w : World) (id : nat) (u t : string) (info : ResponseData)
        (response : DownloadResponse) :
  lookup id (inflight w) = Some (InHandleDownload u (Some info)) ->
  data_title info = Some t ->
  content_disposition response = None ->
  size response <> 0%N ->
  let w' := step w (DownloadSettled id (Resolved response)) in
  since w w' = [SaveFile (t ++ ".mp4") (size response);
                SetLoading true; SetError ""; PostVideoInfo u;
                ToastSuccess "Download completed successfully!";
                SetLoading false]
  /\ error (state w') = "".
Proof.
  intros Hid Ht Hcd Hsize w'. subst w'.
  rewrite (step_DownloadSettled id u (Some info) _ w Hid).
  assert (Hok : download_failure (Some info) (Resolved response) = None).
  { unfold download_failure. rewrite Hcd. cbn.
    apply N.eqb_neq in Hsize. now rewrite Hsize. }
  rewrite (exec_handleDownload_resume_saved u (Some info) response _ Hok).
  split; [|reflexivity].
  apply since_app. cbn [trace retire].
  unfold saved_name. rewrite Hcd. cbn [truthy_opt title_of]. rewrite Ht.
  reflexivity.
Qed.

Lemma C2_filename_falls_back_to_title_witness :
  let response := {| content_disposition := None; size := 1024 |} in
  since downloading_MyClip (step downloading_MyClip (DownloadSettled 1 (Resolved response)))
  = [SaveFile "MyClip.mp4" 1024;
     SetLoading true; SetError ""; PostVideoInfo "http://host/v";
     ToastSuccess "Download completed successfully!";
     SetLoading false].
Proof.
  intros response.
  apply (C2_filename_falls_back_to_title
           downloading_MyClip 1 "http://host/v" "MyClip" MyClip response);
    [reflexivity | reflexivity | reflexivity | discriminate].
Defined.

(** ** Saved files carry bytes *)

Lemma exec_setUrl (u : string) (w : World) :
  exec (setUrl u) w
  = {| state := {| url := u; error := error (state w);
                   loading := loading (state w);
                   videoInfo := videoInfo (state w);
                   progress := progress (state w);
                   estimatedTime := estimatedTime (state w) |};
       trace := trace w ++ [SetUrl u];
       inflight := inflight w; fresh := fresh w |}.
Proof. open_world w. handler_eq. Qed.

Lemma exec_handlePaste (w : World) :
  exec handlePaste w
  = {| state := state w; trace := trace w ++ [ReadClipboard];
       inflight := inflight w ++ [(fresh w, InHandlePaste)];
       fresh := S (fresh w) |}.
Proof. open_world w. handler_eq. Qed.

Lemma exec_handlePaste_resume (r : Settled string) (w : World) :
  exec (handlePaste_resume r) w
  = match r with
    | Resolved clipboardText => exec (setUrl clipboardText) w
    | Rejected _ =>
        {| state := state w;
           trace := trace w ++ [ToastError "Failed to paste from clipboard"];
           inflight := inflight w; fresh := fresh w |}
    end.
Proof. open_world w. destruct r; handler_eq. Qed.

Lemma fetch_failure_None (r : Settled ResponseData) :
  fetch_failure r = None ->
  exists data, r = Resolved data /\ truthy_opt (data_error data) = false.
Proof.
  destruct r as [data|m]; [|discriminate]. intros H. exists data. split; [reflexivity|].
  unfold fetch_failure in H.
  destruct (truthy_opt (data_error data)) eqn:T; [|reflexivity].
  destruct (data_error data); [discriminate H | discriminate T].
Qed.

Lemma download_failure_None (info : option ResponseData) (r : Settled DownloadResponse) :
  download_failure info r = None ->
  exists response, r = Resolved response /\ size response <> 0%N.
Proof.
  destruct r as [response|m]; [|discriminate]. intros H. exists response.
  split; [reflexivity|]. unfold download_failure in H.
  destruct (negb (truthy_opt (content_disposition response)) && _); [discriminate H|].
  destruct (N.eqb (size response) 0) eqn:E; [discriminate H|].
  now apply N.eqb_neq.
Qed.

Lemma continues_refl (w w' : World) : trace w' = trace w -> continues w w'.
Proof. intros H. exists []. now rewrite app_nil_r. Qed.

Lemma continues_trans (w1 w2 w3 : World) :
  continues w1 w2 -> continues w2 w3 -> continues w1 w3.
Proof.
  intros (l & E & F) (l' & E' & F'). exists (l ++ l')%list.
  rewrite E', E, app_assoc, forallb_app, F, F'. split; reflexivity.
Qed.

Lemma continues_fetchVideoInfo_resume (r : Settled ResponseData) (w : World) :
  continues w (exec (fetchVideoInfo_resume r) w).
Proof.
  destruct (fetch_failure r) as [m|] eqn:E.
  - rewrite (exec_fetchVideoInfo_resume_failed r m w E). eexists. split; reflexivity.
  - destruct (fetch_failure_None r E) as (data & -> & T).
    rewrite (exec_fetchVideoInfo_resume_stored data w T). eexists. split; reflexivity.
Qed.

Lemma continues_handleDownload_resume
      (u : string) (info : option ResponseData) (r : Settled DownloadResponse)
      (w : World) :
  continues w (exec (handleDownload_resume u info r) w).
Proof.
  destruct (download_failure info r) as [m|] eqn:E.
  - rewrite (exec_handleDownload_resume_failed u info r m w E).
    eexists. split; reflexivity.
  - destruct (download_failure_None info r E) as (response & -> & Hsize).
    rewrite (exec_handleDownload_resume_saved u info response w E).
    eexists. split; [reflexivity|]. cbn.
    apply N.eqb_neq in Hsize. now rewrite Hsize.
Qed.

Lemma continues_handleDownload (w : World) : continues w (exec handleDownload w).
Proof.
  destruct (download_allowed (state w)) eqn:E.
  - rewrite (exec_handleDownload_valid w E). eexists. split; reflexivity.
  - rewrite (exec_handleDownload_invalid w E). eexists. split; reflexivity.
Qed.

Lemma continues_dispatch (w : World) (ev : Event) : continues w (dispatch w ev).
Proof.
  destruct ev as [v| | | |id r|id r|id ev now1 now2|id r]; unfold dispatch.
  - rewrite exec_setUrl. eexists. split; reflexivity.
  - rewrite exec_handlePaste. eexists. split; reflexivity.
  - destruct (loading (state w)); [now apply continues_refl|].
    apply continues_handleDownload.
  - rewrite exec_handleClear. eexists. split; reflexivity.
  - destruct (lookup id (inflight w)) as [[u|u info|]|]; try now apply continues_refl.
    unfold wake. rewrite exec_handlePaste_resume. destruct r as [text|m].
    + rewrite exec_setUrl. eexists. split; reflexivity.
    + eexists. split; reflexivity.
  - destruct (lookup id (inflight w)) as [[u|u info|]|]; try now apply continues_refl.
    unfold wake. apply (continues_fetchVideoInfo_resume r (retire id w)).
  - destruct (lookup id (inflight w)) as [[u|u info|]|]; try now apply continues_refl.
    rewrite exec_onDownloadProgress. eexists. split; [reflexivity|].
    now destruct (gt _ _).
  - destruct (lookup id (inflight w)) as [[u|u info|]|]; try now apply continues_refl.
    unfold wake. apply (continues_handleDownload_resume u info r (retire id w)).
Qed.

Lemma continues_useEffect_url (before : string) (w : World) :
  continues w (useEffect_url before w).
Proof.
  unfold useEffect_url.
  destruct (String.eqb before (url (state w))); [now apply continues_refl|].
  destruct (truthy_string (url (state w))); [|now apply continues_refl].
  rewrite exec_fetchVideoInfo. eexists. split; reflexivity.
Qed.

Lemma continues_step (w : World) (ev : Event) : continues w (step w ev).
Proof.
  unfold step. eapply continues_trans.
  - apply continues_dispatch.
  - apply continues_useEffect_url.
Qed.

(** Whatever happens to the component, it never saves an empty file. *)
Lemma run_saves_bytes (evs : list Event) (w : World) :
  forallb saves_bytes (trace w) = true ->
  forallb saves_bytes (trace (run w evs)) = true.
Proof.
  revert w. induction evs as [|ev evs IH]; intros w Hw; [exact Hw|].
  cbn [run fold_left]. apply IH.
  destruct (continues_step w ev) as (l & -> & Hl).
  now rewrite forallb_app, Hw, Hl.
Qed.

(** C6.  A download in flight settled by a response whose blob has size 0
    ends in the error "Received empty file", stored and toasted, and saves
    nothing; and whatever the events, every file the component ever saves
    has a positive size. *)
Theorem C6_empty_file_rejected
        (w : World) (id : nat) (u : string) (info : ResponseData)
        (response : DownloadResponse) :
  lookup id (inflight w) = Some (InHandleDownload u (Some info)) ->
  size response = 0%N ->
  let w' := step w (DownloadSettled id (Resolved response)) in
  since w w' = [SetError "Error downloading video: Received empty file";
                ToastError "Error downloading video: Received empty file";
                SetLoading false]
  /\ error (state w') = "Error downloading video: Received empty file"
  /\ (forall evs filename bytes,
        In (SaveFile filename bytes) (trace (run start evs)) -> (0 < bytes)%N).
Proof.
  intros Hid Hsize w'. subst w'.
  rewrite (step_DownloadSettled id u (Some info) _ w Hid).
  assert (Hf : download_failure (Some info) (Resolved response)
               = Some "Received empty file").
  { unfold download_failure. rewrite Hsize, andb_false_r. reflexivity. }
  rewrite (exec_handleDownload_resume_failed u (Some info) _ _ (retire id w) Hf).
  split; [now apply since_app|]. split; [reflexivity|].
  intros evs filename bytes Hin.
  pose proof (run_saves_bytes evs start eq_refl) as H.
  rewrite forallb_forall in H. specialize (H _ Hin). cbn in H.
  destruct (N.eqb bytes 0) eqn:E; [discriminate H|].
  apply N.eqb_neq in E. lia.
Qed.

Lemma C6_empty_file_rejected_witness :
  let response := {| content_disposition := Some "attachment; filename=clip.mp4";
                     size := 0 |} in
  since downloading_MyClip (step downloading_MyClip (DownloadSettled 1 (Resolved response)))
  = [SetError "Error downloading video: Received empty file";
     ToastError "Error downloading video: Received empty file";
     SetLoading false].
Proof.
  intros response.
  apply (C6_empty_file_rejected downloading_MyClip 1 "http://host/v" MyClip response);
    reflexivity.
Defined.

(** ** Calls in flight *)

Lemma well_formed_list_remove (n id : nat) (l : list (nat * Suspended)) :
  well_formed_list n l -> well_formed_list n (remove id l).
Proof.
  intros [Hnd Hall]. induction l as [|[i k] l IH]; [split; constructor|].
  cbn [remove]. inversion Hnd as [|? ? Hni Hnd']; subst.
  inversion Hall as [|? ? Hp Hall']; subst.
  destruct (Nat.eqb i id); [now split|].
  destruct (IH Hnd' Hall') as [IHnd IHall].
  split; [|now constructor].
  cbn [map fst]. constructor; [|exact IHnd].
  intros Hin. apply Hni. clear - Hin.
  induction l as [|[j k'] l IHl]; [exact Hin|].
  cbn [remove] in Hin. destruct (Nat.eqb j id).
  - right. exact Hin.
  - destruct Hin as [Hin|Hin]; [now left | right; now apply IHl].
Qed.

Lemma well_formed_list_snoc (n : nat) (k : Suspended) (l : list (nat * Suspended)) :
  closure_ok k = true ->
  well_formed_list n l -> well_formed_list (S n) (l ++ [(n, k)]).
Proof.
  intros Hk [Hnd Hall]. split.
  - rewrite map_app. cbn [map fst].
    apply NoDup_app; [exact Hnd | repeat constructor; intros [] |].
    intros i Hi [<-|[]].
    apply in_map_iff in Hi. destruct Hi as (p & Hp & Hin).
    rewrite Forall_forall in Hall. specialize (Hall p Hin). lia.
  - apply Forall_app. split.
    + eapply Forall_impl; [|exact Hall]. intros p [Hlt Hok]. split; [lia | exact Hok].
    + constructor; [split; [cbn; lia | exact Hk] | constructor].
Qed.

Lemma well_formed_retire (id : nat) (w : World) :
  well_formed w -> well_formed (retire id w).
Proof. apply well_formed_list_remove. Qed.

Lemma well_formed_fetchVideoInfo_resume (r : Settled ResponseData) (w : World) :
  well_formed w -> well_formed (exec (fetchVideoInfo_resume r) w).
Proof.
  intros H. destruct (fetch_failure r) as [m|] eqn:E.
  - now rewrite (exec_fetchVideoInfo_resume_failed r m w E).
  - destruct (fetch_failure_None r E) as (data & -> & T).
    now rewrite (exec_fetchVideoInfo_resume_stored data w T).
Qed.

Lemma well_formed_handleDownload_resume
      (u : string) (info : option ResponseData) (r : Settled DownloadResponse)
      (w : World) :
  well_formed w -> well_formed (exec (handleDownload_resume u info r) w).
Proof.
  intros H. destruct (download_failure info r) as [m|] eqn:E.
  - now rewrite (exec_handleDownload_resume_failed u info r m w E).
  - destruct (download_failure_None info r E) as (response & -> & _).
    rewrite (exec_handleDownload_resume_saved u info response w E).
    now apply well_formed_list_snoc.
Qed.

Lemma well_formed_setUrl (u : string) (w : World) :
  well_formed w -> well_formed (exec (setUrl u) w).
Proof. intros H. now rewrite exec_setUrl. Qed.

Lemma well_formed_dispatch (w : World) (ev : Event) :
  well_formed w -> well_formed (dispatch w ev).
Proof.
  intros H.
  destruct ev as [v| | | |id r|id r|id ev now1 now2|id r]; unfold dispatch.
  - now apply well_formed_setUrl.
  - rewrite exec_handlePaste. now apply well_formed_list_snoc.
  - destruct (loading (state w)); [exact H|].
    destruct (download_allowed (state w)) eqn:E.
    + rewrite (exec_handleDownload_valid w E). now apply well_formed_list_snoc.
    + now rewrite (exec_handleDownload_invalid w E).
  - now rewrite exec_handleClear.
  - destruct (lookup id (inflight w)) as [[u|u info|]|]; try exact H.
    unfold wake. rewrite exec_handlePaste_resume. destruct r as [text|m].
    + now apply well_formed_setUrl, well_formed_retire.
    + now apply well_formed_retire.
  - destruct (lookup id (inflight w)) as [[u|u info|]|]; try exact H.
    now apply well_formed_fetchVideoInfo_resume, well_formed_retire.
  - destruct (lookup id (inflight w)) as [[u|u info|]|]; try exact H.
    now rewrite exec_onDownloadProgress.
  - destruct (lookup id (inflight w)) as [[u|u info|]|]; try exact H.
    now apply well_formed_handleDownload_resume, well_formed_retire.
Qed.

Lemma well_formed_step (w : World) (ev : Event) :
  well_formed w -> well_formed (step w ev).
Proof.
  intros H. unfold step, useEffect_url.
  pose proof (well_formed_dispatch w ev H) as H'.
  destruct (String.eqb _ _); [exact H'|].
  destruct (truthy_string _); [|exact H'].
  rewrite exec_fetchVideoInfo. now apply well_formed_list_snoc.
Qed.

(** Whatever the events, the calls in flight have distinct identifiers, and
    a suspended [handleDownload] holds a non-empty [url] and a [videoInfo]
    with a non-empty title. *)
Lemma well_formed_run (evs : list Event) (w : World) :
  well_formed w -> well_formed (run w evs).
Proof.
  revert w. induction evs as [|ev evs IH]; intros w H; [exact H|].
  cbn [run fold_left]. now apply IH, well_formed_step.
Qed.

Lemma well_formed_start : well_formed start.
Proof. split; constructor. Qed.

Lemma suspended_download_has_title
      (evs : list Event) (id : nat) (u : string) (info : option ResponseData) :
  lookup id (inflight (run start evs)) = Some (InHandleDownload u info) ->
  u <> "" /\ exists i t, info = Some i /\ data_title i = Some t /\ t <> "".
Proof.
  intros Hl.
  destruct (well_formed_run evs start well_formed_start) as [_ Hall].
  assert (Hin : In (id, InHandleDownload u info) (inflight (run start evs))).
  { clear Hall. induction (inflight (run start evs)) as [|[j k] l IH]; [discriminate Hl|].
    cbn [lookup] in Hl. destruct (Nat.eqb j id) eqn:E.
    - apply Nat.eqb_eq in E. injection Hl as ->. left. now subst.
    - right. now apply IH. }
  rewrite Forall_forall in Hall. destruct (Hall _ Hin) as [_ Hok].
  cbn [snd closure_ok] in Hok. apply andb_true_iff in Hok. destruct Hok as [Hu Ht].
  split; [now destruct u|].
  destruct info as [i|]; [|discriminate Ht].
  cbn [title_of] in Ht. destruct (data_title i) as [t|] eqn:Et; [|discriminate Ht].
  exists i, t. repeat split; [exact Et | now destruct t].
Qed.

(** ** The estimated time *)

(** [Math.max(x, 0)] is never below zero: it is NaN, or zero, or [x]
    itself when [x] is above zero. *)
Lemma Math_max_zero_not_negative (x : number) :
  lt (Math_max x (of_Z 0)) (of_Z 0) = false.
Proof. destruct x as [[|]|[|]| |[|] m e]; reflexivity. Qed.

(** With a truthy [startTime], the elapsed time is the first clock reading
    minus [startTime], in seconds. *)
Lemma elapsedTime_since_start (ev : ProgressEvent) (st now1 now2 : number) :
  startTime ev = Some st -> truthy st = true ->
  elapsedTime ev now1 now2 = div (sub now1 st) (of_Z 1000).
Proof. unfold elapsedTime, or_default. now intros -> ->. Qed.

(** A quarter of the bytes after one second: three more seconds. *)
Example eta_quarter :
  let ev := {| loaded := of_Z 250000; total := Some (of_Z 1000000);
               startTime := Some (of_Z 1700000000000) |} in
  formatTime (remainingTime ev (of_Z 1700000001000) (of_Z 1700000001000)) = "0m 3s".
Proof. vm_compute. reflexivity. Qed.

(** While every progress event comes without a usable total, a download
    shows no estimate at all. *)
Lemma eta_absent_while_total_unknown
      (w : World) (id : nat) (evs : list (ProgressEvent * number * number)) :
  estimatedTime (state w) = None ->
  Forall (fun e => gt (or_default (total (fst (fst e))) (of_Z 0)) (of_Z 0) = false) evs ->
  estimatedTime
    (state (run w (map (fun e => DownloadProgress id (fst (fst e)) (snd (fst e)) (snd e)) evs)))
  = None.
Proof.
  intros Hw Hall. revert w Hw.
  induction Hall as [|[[ev now1] now2] evs Hev _ IH]; intros w Hw; [exact Hw|].
  cbn [map run fold_left fst snd] in *. apply IH.
  unfold step, dispatch.
  destruct (lookup id (inflight w)) as [[u|u info|]|];
    try (rewrite useEffect_url_unchanged; [exact Hw | reflexivity]).
  rewrite useEffect_url_unchanged by now rewrite exec_onDownloadProgress.
  rewrite exec_onDownloadProgress. cbn [state estimatedTime].
  now rewrite Hev.
Qed.

(** ** The loading flag *)

Lemma loading_fetchVideoInfo_resume (r : Settled ResponseData) (w : World) :
  loading (state (exec (fetchVideoInfo_resume r) w)) = false.
Proof.
  destruct (fetch_failure r) as [m|] eqn:E.
  - now rewrite (exec_fetchVideoInfo_resume_failed r m w E).
  - destruct (fetch_failure_None r E) as (data & -> & T).
    now rewrite (exec_fetchVideoInfo_resume_stored data w T).
Qed.

Lemma loading_handleDownload_resume
      (u : string) (info : option ResponseData) (r : Settled DownloadResponse)
      (w : World) :
  loading (state (exec (handleDownload_resume u info r) w)) = false.
Proof.
  destruct (download_failure info r) as [m|] eqn:E.
  - now rewrite (exec_handleDownload_resume_failed u info r m w E).
  - destruct (download_failure_None info r E) as (response & -> & _).
    now rewrite (exec_handleDownload_resume_saved u info response w E).
Qed.

(** C10.  When a suspended [fetchVideoInfo] or [handleDownload] runs to
    its end, however its request settled, [loading] is [false]; so it is
    when [handleDownload], started from the enabled button, ends at once on
    the validation error. *)
Theorem C10_loading_false_on_termination (w : World) :
  (forall id u r,
      lookup id (inflight w) = Some (InFetchVideoInfo u) ->
      loading (state (step w (VideoInfoSettled id r))) = false)
  /\ (forall id u info r,
        lookup id (inflight w) = Some (InHandleDownload u info) ->
        loading (state (step w (DownloadSettled id r))) = false)
  /\ (loading (state w) = false ->
      download_allowed (state w) = false ->
      loading (state (step w ClickDownload)) = false).
Proof.
  split; [|split].
  - intros id u r Hid. rewrite (step_VideoInfoSettled id u r w Hid).
    apply loading_fetchVideoInfo_resume.
  - intros id u info r Hid. rewrite (step_DownloadSettled id u info r w Hid).
    apply loading_handleDownload_resume.
  - intros Hl Hinv.
    rewrite (step_ClickDownload w Hl), (exec_handleDownload_invalid w Hinv).
    exact Hl.
Qed.

Lemma C10_loading_false_on_termination_witness :
  loading (state (step downloading_MyClip
                       (DownloadSettled 1 (Rejected "Network Error")))) = false
  /\ loading (state (step start ClickDownload)) = false.
Proof.
  split.
  - apply (proj1 (proj2 (C10_loading_false_on_termination downloading_MyClip))
             1 "http://host/v" (Some MyClip) (Rejected "Network Error")).
    reflexivity.
  - apply (proj2 (proj2 (C10_loading_false_on_termination start))); reflexivity.
Defined.

(* ================================================================== *)
(** * Further properties of the component *)
(* ================================================================== *)

(** ** The file name taken from Content-Disposition *)

Lemma prefix_empty_false (sep : string) : sep <> "" -> prefix sep "" = false.
Proof. destruct sep; [congruence | reflexivity]. Qed.

Lemma prefix_append (sep tail : string) : prefix sep (sep ++ tail) = true.
Proof.
  induction sep as [|a sep IH]; [now destruct tail|].
  cbn. destruct (ascii_dec a a); [exact IH | congruence].
Qed.

(** Once a separator has been matched, its remaining characters are passed
    over. *)
Lemma split_from_skip (sep x y : string) :
  split_from sep (String.length x) (x ++ y) = split_from sep 0 y.
Proof. induction x as [|c x IH]; [now destruct y | exact IH]. Qed.

Lemma split_no_occurrence (sep s : string) :
  occurs sep s = false -> split sep s = [s].
Proof.
  unfold split. induction s as [|c s IH]; [reflexivity|].
  cbn [occurs split_from]. intros H. apply orb_false_iff in H. destruct H as [Hp Ho].
  rewrite Hp, (IH Ho). reflexivity.
Qed.

Lemma split_first_occurrence (sep pre tail : string) :
  sep <> "" ->
  starts_within sep pre (sep ++ tail) = false ->
  split sep (pre ++ sep ++ tail) = pre :: split sep tail.
Proof.
  intros Hsep. unfold split. induction pre as [|c pre IH]; intros H.
  - destruct sep as [|a sep]; [congruence|].
    change ("" ++ String a sep ++ tail) with (String a (sep ++ tail)).
    cbn [split_from].
    change (String a (sep ++ tail)) with (String a sep ++ tail).
    rewrite prefix_append.
    replace (String.length (String a sep) - 1) with (String.length sep)
      by (cbn [String.length]; lia).
    now rewrite split_from_skip.
  - cbn [starts_within] in H. apply orb_false_iff in H. destruct H as [Hp Hs].
    change (String c pre ++ sep ++ tail) with (String c (pre ++ sep ++ tail)).
    cbn [split_from].
    change (String c (pre ++ sep ++ tail)) with (String c pre ++ sep ++ tail).
    rewrite Hp, (IH Hs). reflexivity.
Qed.

(** The text between the first two occurrences of the separator, or after
    the only one. *)
Lemma split_second_part (sep pre name : string) :
  sep <> "" ->
  starts_within sep pre (sep ++ name) = false ->
  occurs sep name = false ->
  nth_error (split sep (pre ++ sep ++ name)) 1 = Some name.
Proof.
  intros Hsep Hpre Hname.
  rewrite (split_first_occurrence sep pre name Hsep Hpre).
  now rewrite (split_no_occurrence sep name Hname).
Qed.

Lemma truthy_string_append (pre rest : string) :
  truthy_string rest = true -> truthy_string (pre ++ rest) = true.
Proof. now destruct pre. Qed.

(** X1.  When the response carries a Content-Disposition header in which
    "filename=" first occurs after [pre] and does not occur again in what
    follows, the blob is saved under what follows, taken as it is (quotes
    included), whatever the title; the download then ends as any other. *)
Theorem header_names_the_file
        (w : World) (id : nat) (u : string) (info : option ResponseData)
        (pre name : string) (bytes : N) :
  lookup id (inflight w) = Some (InHandleDownload u info) ->
  starts_within "filename=" pre ("filename=" ++ name) = false ->
  occurs "filename=" name = false ->
  bytes <> 0%N ->
  let response := {| content_disposition := Some (pre ++ "filename=" ++ name);
                     size := bytes |} in
  since w (step w (DownloadSettled id (Resolved response)))
  = [SaveFile name bytes; SetLoading true; SetError ""; PostVideoInfo u;
     ToastSuccess "Download completed successfully!"; SetLoading false].
Proof.
  intros Hid Hpre Hname Hbytes response.
  assert (Htruthy : truthy_opt (content_disposition response) = true).
  { apply truthy_string_append. reflexivity. }
  assert (Hok : download_failure info (Resolved response) = None).
  { unfold download_failure. rewrite Htruthy. cbn [negb andb size response].
    apply N.eqb_neq in Hbytes. now rewrite Hbytes. }
  rewrite (step_DownloadSettled id u info _ w Hid).
  rewrite (exec_handleDownload_resume_saved u info response _ Hok).
  apply since_app. cbn [trace retire].
  unfold saved_name. rewrite Htruthy.
  cbn [content_disposition response StringOf].
  rewrite (split_second_part "filename=" pre name); [reflexivity | discriminate | assumption | assumption].
Qed.

Lemma header_names_the_file_witness :
  since downloading_MyClip
        (step downloading_MyClip
              (DownloadSettled 1 (Resolved {| content_disposition := Some quoted_header;
                                              size := 1024 |})))
  = [SaveFile (String (ascii_of_nat 34) ("clip.mp4" ++ String (ascii_of_nat 34) ""))
              1024;
     SetLoading true; SetError ""; PostVideoInfo "http://host/v";
     ToastSuccess "Download completed successfully!"; SetLoading false].
Proof.
  apply (header_names_the_file downloading_MyClip 1 "http://host/v" (Some MyClip)
           "attachment; "
           (String (ascii_of_nat 34) ("clip.mp4" ++ String (ascii_of_nat 34) ""))
           1024);
    [reflexivity | reflexivity | reflexivity | discriminate].
Defined.

(** X2.  When the response carries a non-empty Content-Disposition header
    in which "filename=" does not occur (a bare "attachment", or a
    "filename*=" parameter only), the title is not used: the blob is saved
    under the name "undefined". *)
Theorem header_without_filename
        (w : World) (id : nat) (u : string) (info : option ResponseData)
        (header : string) (bytes : N) :
  lookup id (inflight w) = Some (InHandleDownload u info) ->
  header <> "" ->
  occurs "filename=" header = false ->
  bytes <> 0%N ->
  let response := {| content_disposition := Some header; size := bytes |} in
  since w (step w (DownloadSettled id (Resolved response)))
  = [SaveFile "undefined" bytes; SetLoading true; SetError ""; PostVideoInfo u;
     ToastSuccess "Download completed successfully!"; SetLoading false].
Proof.
  intros Hid Hne Hocc Hbytes response.
  assert (Htruthy : truthy_opt (content_disposition response) = true).
  { cbn. now destruct header. }
  assert (Hok : download_failure info (Resolved response) = None).
  { unfold download_failure. rewrite Htruthy. cbn [negb andb size response].
    apply N.eqb_neq in Hbytes. now rewrite Hbytes. }
  rewrite (step_DownloadSettled id u info _ w Hid).
  rewrite (exec_handleDownload_resume_saved u info response _ Hok).
  apply since_app. cbn [trace retire].
  unfold saved_name. rewrite Htruthy.
  cbn [content_disposition response StringOf].
  now rewrite (split_no_occurrence "filename=" header Hocc).
Qed.

Lemma header_without_filename_witness :
  since downloading_MyClip
        (step downloading_MyClip
              (DownloadSettled 1 (Resolved {| content_disposition :=
                                                Some "attachment; filename*=UTF-8''clip.mp4";
                                              size := 1024 |})))
  = [SaveFile "undefined" 1024;
     SetLoading true; SetError ""; PostVideoInfo "http://host/v";
     ToastSuccess "Download completed successfully!"; SetLoading false].
Proof.
  apply (header_without_filename downloading_MyClip 1 "http://host/v" (Some MyClip)
           "attachment; filename*=UTF-8''clip.mp4" 1024);
    [reflexivity | discriminate | reflexivity | discriminate].
Defined.

(** ** Typing and pasting *)

(** X3.  Typing a value into the input issues a metadata request exactly
    when the value differs from the [url] held and is not empty; the value
    becomes the [url] in any case, and nothing but that request is sent. *)
Theorem typing_fetches_iff_new_and_nonempty (w : World) (value : string) :
  url (state (step w (Change value))) = value
  /\ (existsb is_request (since w (step w (Change value))) = true
      <-> value <> url (state w) /\ value <> "")
  /\ (value <> url (state w) -> value <> "" ->
      since w (step w (Change value))
      = [SetUrl value; SetLoading true; SetError ""; PostVideoInfo value]).
Proof.
  assert (Hsame : String.eqb (url (state w)) value = true \/ value = "" ->
                  step w (Change value) = exec (setUrl value) w).
  { intros H. unfold step, dispatch, useEffect_url. rewrite exec_setUrl.
    cbn [state url].
    destruct (String.eqb (url (state w)) value); [reflexivity|].
    destruct H as [H| ->]; [discriminate H | reflexivity]. }
  destruct (String.eqb (url (state w)) value) eqn:E.
  - rewrite (Hsame (or_introl eq_refl)), exec_setUrl.
    apply String.eqb_eq in E.
    split; [reflexivity|]. split; [|intros Hne; now symmetry in E].
    rewrite (since_app w _ [SetUrl value]) by reflexivity.
    split; [discriminate | intros [Hne _]; now symmetry in E].
  - apply String.eqb_neq in E.
    destruct (string_dec value "") as [->|Hne].
    + rewrite (Hsame (or_intror eq_refl)), exec_setUrl.
      split; [reflexivity|]. split; [|congruence].
      rewrite (since_app w _ [SetUrl ""]) by reflexivity.
      split; [discriminate | intros [_ H]; congruence].
    + rewrite (step_Change_fetches value w) by (try assumption; now apply String.eqb_neq).
      split; [reflexivity|].
      rewrite (since_app w _ [SetUrl value; SetLoading true; SetError ""; PostVideoInfo value])
        by reflexivity.
      split; [|reflexivity].
      split; [intros _; split; congruence | reflexivity].
Qed.

(** X4.  When the clipboard read of a paste succeeds, its text becomes the
    [url], and it is fetched exactly as if it had been typed; when the read
    fails, the state cells are left alone and one error toast is shown. *)
Theorem paste_is_typing_or_a_toast (w : World) (id : nat) :
  lookup id (inflight w) = Some InHandlePaste ->
  (forall text,
      step w (ClipboardSettled id (Resolved text)) = step (retire id w) (Change text))
  /\ (forall message,
        state (step w (ClipboardSettled id (Rejected message))) = state w
        /\ since w (step w (ClipboardSettled id (Rejected message)))
           = [ToastError "Failed to paste from clipboard"]).
Proof.
  intros Hid. split.
  - intros text. unfold step, dispatch, wake. rewrite Hid.
    now rewrite exec_handlePaste_resume.
  - intros message. unfold step, dispatch, wake. rewrite Hid.
    rewrite exec_handlePaste_resume.
    rewrite useEffect_url_unchanged by reflexivity.
    split; [reflexivity | now apply since_app].
Qed.

Lemma paste_is_typing_or_a_toast_witness :
  since (step start ClickPaste)
        (step (step start ClickPaste) (ClipboardSettled 0 (Rejected "NotAllowedError")))
  = [ToastError "Failed to paste from clipboard"].
Proof.
  apply (proj2 (paste_is_typing_or_a_toast (step start ClickPaste) 0 eq_refl)
           "NotAllowedError").
Defined.

(** ** Failures of the metadata fetch *)

(** X5.  A response whose body has a non-empty [error] field is handled as
    a rejected request with that message: same cells, same actions.  Either
    way the metadata held before stays, and [error] holds the message. *)
Theorem service_error_is_a_rejection
        (w : World) (id : nat) (u e : string) (data : ResponseData) :
  lookup id (inflight w) = Some (InFetchVideoInfo u) ->
  data_error data = Some e ->
  e <> "" ->
  let w' := step w (VideoInfoSettled id (Resolved data)) in
  w' = step w (VideoInfoSettled id (Rejected e))
  /\ videoInfo (state w') = videoInfo (state w)
  /\ error (state w') = "Error fetching video info: " ++ e
  /\ since w w' = [SetError ("Error fetching video info: " ++ e);
                   ToastError ("Invalid URL: " ++ e); SetLoading false].
Proof.
  intros Hid He Hne w'. subst w'.
  assert (Hf : fetch_failure (Resolved data) = Some e).
  { unfold fetch_failure. rewrite He. cbn. now destruct e. }
  rewrite !(step_VideoInfoSettled id u _ w Hid).
  rewrite (exec_fetchVideoInfo_resume_failed (Resolved data) e _ Hf).
  rewrite (exec_fetchVideoInfo_resume_failed (Rejected e) e _ eq_refl).
  repeat split. now apply since_app.
Qed.

Lemma service_error_is_a_rejection_witness :
  let w := step start (Change "http://host/v") in
  let data := {| data_error := Some "Unsupported URL"; data_title := None;
                 data_thumbnail := None |} in
  step w (VideoInfoSettled 0 (Resolved data))
  = step w (VideoInfoSettled 0 (Rejected "Unsupported URL")).
Proof.
  apply (service_error_is_a_rejection
           (step start (Change "http://host/v")) 0 "http://host/v" "Unsupported URL"
           {| data_error := Some "Unsupported URL"; data_title := None;
              data_thumbnail := None |});
    [reflexivity | reflexivity | discriminate].
Defined.

(** ** Calls in flight, looked up *)

Lemma lookup_In (id : nat) (k : Suspended) (l : list (nat * Suspended)) :
  lookup id l = Some k -> In (id, k) l.
Proof.
  induction l as [|[j k'] l IH]; [discriminate|].
  cbn [lookup]. destruct (Nat.eqb j id) eqn:E.
  - apply Nat.eqb_eq in E. intros [= ->]. left. now subst.
  - intros H. right. now apply IH.
Qed.

Lemma lookup_app_found (id : nat) (k : Suspended) (l l' : list (nat * Suspended)) :
  lookup id l = Some k -> lookup id (l ++ l') = Some k.
Proof.
  induction l as [|[j k'] l IH]; [discriminate|].
  cbn [lookup app]. now destruct (Nat.eqb j id).
Qed.

Lemma lookup_remove_other (id1 id2 : nat) (l : list (nat * Suspended)) :
  id1 <> id2 -> lookup id2 (remove id1 l) = lookup id2 l.
Proof.
  intros Hne. induction l as [|[j k] l IH]; [reflexivity|].
  cbn [remove lookup]. destruct (Nat.eqb j id1) eqn:E1.
  - apply Nat.eqb_eq in E1. subst j.
    apply Nat.eqb_neq in Hne. now rewrite Hne.
  - cbn [lookup]. now rewrite IH.
Qed.

Lemma lookup_snoc_fresh (n : nat) (k : Suspended) (l : list (nat * Suspended)) :
  well_formed_list n l -> lookup n (l ++ [(n, k)]) = Some k.
Proof.
  intros [_ Hall]. induction Hall as [|[j k'] l [Hlt _] _ IH].
  - cbn. now rewrite Nat.eqb_refl.
  - cbn [app lookup fst] in *.
    destruct (Nat.eqb j n) eqn:E; [apply Nat.eqb_eq in E; lia | exact IH].
Qed.

Lemma closure_of_lookup (w : World) (id : nat) (k : Suspended) :
  well_formed w -> lookup id (inflight w) = Some k -> closure_ok k = true.
Proof.
  intros [_ Hall] Hid. apply lookup_In in Hid.
  rewrite Forall_forall in Hall. now destruct (Hall _ Hid).
Qed.

Lemma inflight_fetchVideoInfo_resume (r : Settled ResponseData) (w : World) :
  inflight (exec (fetchVideoInfo_resume r) w) = inflight w.
Proof.
  destruct (fetch_failure r) as [m|] eqn:E.
  - now rewrite (exec_fetchVideoInfo_resume_failed r m w E).
  - destruct (fetch_failure_None r E) as (data & -> & T).
    now rewrite (exec_fetchVideoInfo_resume_stored data w T).
Qed.

(** ** How operations overlap *)

(** X6.  The first call to finish clears [loading] for all: when a
    metadata fetch or a download settles, however it settles, the Download
    button is enabled again although every other call is still in flight. *)
Theorem first_to_finish_enables_the_button
        (w : World) (id other : nat) (k : Suspended) :
  other <> id ->
  lookup other (inflight w) = Some k ->
  (forall u r,
      lookup id (inflight w) = Some (InFetchVideoInfo u) ->
      let w' := step w (VideoInfoSettled id r) in
      download_disabled (render (state w')) = false
      /\ lookup other (inflight w') = Some k)
  /\ (forall u info r,
        lookup id (inflight w) = Some (InHandleDownload u info) ->
        let w' := step w (DownloadSettled id r) in
        download_disabled (render (state w')) = false
        /\ lookup other (inflight w') = Some k).
Proof.
  intros Hne Hother. split.
  - intros u r Hid w'. subst w'.
    rewrite (step_VideoInfoSettled id u r w Hid).
    split; [apply loading_fetchVideoInfo_resume|].
    rewrite inflight_fetchVideoInfo_resume. cbn [retire inflight].
    rewrite lookup_remove_other by congruence. exact Hother.
  - intros u info r Hid w'. subst w'.
    rewrite (step_DownloadSettled id u info r w Hid).
    split; [apply loading_handleDownload_resume|].
    destruct (download_failure info r) as [m|] eqn:E.
    + rewrite (exec_handleDownload_resume_failed u info r m _ E). cbn [retire inflight].
      rewrite lookup_remove_other by congruence. exact Hother.
    + destruct (download_failure_None info r E) as (response & -> & _).
      rewrite (exec_handleDownload_resume_saved u info response _ E). cbn [retire inflight].
      apply lookup_app_found.
      rewrite lookup_remove_other by congruence. exact Hother.
Qed.

Lemma first_to_finish_enables_the_button_witness :
  download_disabled
    (render (state (step (run start [Change "https://a"; Change "https://b"])
                         (VideoInfoSettled 1 (Rejected "Network Error")))))
  = false
  /\ lookup 0 (inflight (step (run start [Change "https://a"; Change "https://b"])
                              (VideoInfoSettled 1 (Rejected "Network Error"))))
     = Some (InFetchVideoInfo "https://a").
Proof.
  apply (proj1 (first_to_finish_enables_the_button
                  (run start [Change "https://a"; Change "https://b"]) 1 0
                  (InFetchVideoInfo "https://a") ltac:(discriminate) eq_refl)
           "https://b" (Rejected "Network Error") eq_refl).
Defined.

(** X7.  A download sends the [url] of the moment with the title of the
    moment, wherever that title came from: after the metadata of URL A has
    been stored, the input has changed to URL B and the fetch for B has
    failed, the Download button sends B with A's title. *)
Theorem download_sends_the_title_of_another_url
        (A B : string) (dA : ResponseData) (r : Settled ResponseData) (m : string) :
  A <> "" -> B <> "" -> A <> B ->
  truthy_opt (data_error dA) = false ->
  truthy_opt (data_title dA) = true ->
  fetch_failure r = Some m ->
  let w := run start [Change A; VideoInfoSettled 0 (Resolved dA);
                      Change B; VideoInfoSettled 1 r] in
  url (state w) = B
  /\ videoInfo (state w) = Some dA
  /\ since w (step w ClickDownload)
     = [SetLoading true; SetError ""; SetProgress (of_Z 0);
        SetEstimatedTime None; SetVideoInfo None;
        PostDownload B (data_title dA)].
Proof.
  intros HA HB HAB HdA HtA Hr w. subst w.
  unfold run, start, initial. cbn [fold_left].
  rewrite (step_Change_fetches A)
    by first [assumption | destruct A; [congruence | reflexivity]].
  world_cells.
  match goal with
  | |- context [step ?w (VideoInfoSettled 0 ?x)] =>
      rewrite (step_VideoInfoSettled 0 A x w eq_refl)
  end.
  rewrite (exec_fetchVideoInfo_resume_stored dA _ HdA). world_cells.
  rewrite (step_Change_fetches B)
    by first [assumption | now apply String.eqb_neq].
  world_cells.
  match goal with
  | |- context [step ?w (VideoInfoSettled 1 ?x)] =>
      rewrite (step_VideoInfoSettled 1 B x w eq_refl)
  end.
  rewrite (exec_fetchVideoInfo_resume_failed r m _ Hr). world_cells.
  split; [reflexivity|]. split; [reflexivity|].
  apply since_app.
  rewrite step_ClickDownload by reflexivity.
  rewrite exec_handleDownload_valid; [reflexivity|].
  unfold download_allowed. cbn [state url videoInfo title_of].
  rewrite HtA. now destruct B.
Qed.

Lemma download_sends_the_title_of_another_url_witness :
  since (run start [Change "https://a"; VideoInfoSettled 0 (Resolved MyClip);
                    Change "https://b"; VideoInfoSettled 1 (Rejected "Network Error")])
        (step (run start [Change "https://a"; VideoInfoSettled 0 (Resolved MyClip);
                          Change "https://b"; VideoInfoSettled 1 (Rejected "Network Error")])
              ClickDownload)
  = [SetLoading true; SetError ""; SetProgress (of_Z 0);
     SetEstimatedTime None; SetVideoInfo None;
     PostDownload "https://b" (Some "MyClip")].
Proof.
  apply (download_sends_the_title_of_another_url
           "https://a" "https://b" MyClip (Rejected "Network Error") "Network Error");
    try discriminate; reflexivity.
Defined.



(** X9.  Clear does not cancel a download: the call stays in flight, and
    when its response arrives the blob is saved and the metadata of the URL
    it was started for is requested again; once that is answered the
    metadata is shown although the input is empty. *)
Theorem clear_does_not_cancel_the_download
        (w : World) (id : nat) (u : string) (info : option ResponseData)
        (response : DownloadResponse) (data : ResponseData) :
  well_formed w ->
  lookup id (inflight w) = Some (InHandleDownload u info) ->
  download_failure info (Resolved response) = None ->
  truthy_opt (data_error data) = false ->
  let w1 := step w ClickClear in
  let w2 := step w1 (DownloadSettled id (Resolved response)) in
  let w3 := step w2 (VideoInfoSettled (fresh w) (Resolved data)) in
  lookup id (inflight w1) = Some (InHandleDownload u info)
  /\ since w1 w2 = [SaveFile (saved_name info response) (size response);
                    SetLoading true; SetError ""; PostVideoInfo u;
                    ToastSuccess "Download completed successfully!";
                    SetLoading false]
  /\ input_value (render (state w3)) = ""
  /\ preview (render (state w3)) = Some (data_thumbnail data, child_text (data_title data)).
Proof.
  intros Hwf Hid Hok Hdata w1 w2 w3. subst w3 w2 w1.
  rewrite step_ClickClear, exec_handleClear.
  split; [exact Hid|].
  match goal with
  | |- context [step ?x (DownloadSettled id ?y)] =>
      rewrite (step_DownloadSettled id u info y x Hid)
  end.
  rewrite (exec_handleDownload_resume_saved u info response _ Hok). world_cells.
  split; [now apply since_app|].
  assert (Hnew : lookup (fresh w)
                        (VideoDownloader.remove id (inflight w) ++ [(fresh w, InFetchVideoInfo u)])
                 = Some (InFetchVideoInfo u)).
  { apply lookup_snoc_fresh. now apply well_formed_list_remove. }
  match goal with
  | |- context [step ?x (VideoInfoSettled _ ?y)] =>
      rewrite (step_VideoInfoSettled (fresh w) u y x Hnew)
  end.
  rewrite (exec_fetchVideoInfo_resume_stored data _ Hdata).
  split; reflexivity.
Qed.

Lemma clear_does_not_cancel_the_download_witness :
  preview
    (render
       (state
          (step (step (step downloading_MyClip ClickClear)
                      (DownloadSettled 1 (Resolved {| content_disposition := None;
                                                      size := 1024 |})))
                (VideoInfoSettled 2 (Resolved MyClip)))))
  = Some (None, "MyClip").
Proof.
  apply (clear_does_not_cancel_the_download
           downloading_MyClip 1 "http://host/v" (Some MyClip)
           {| content_disposition := None; size := 1024 |} MyClip
           (well_formed_step ready_MyClip ClickDownload
              (well_formed_run _ start well_formed_start))
           eq_refl eq_refl eq_refl).
Defined.

(** ** What is sent *)

Lemma extends_with_refl (P : Action -> bool) (w w' : World) :
  trace w' = trace w -> extends_with P w w'.
Proof. intros H. exists []. now rewrite app_nil_r. Qed.

Lemma extends_with_trans (P : Action -> bool) (w1 w2 w3 : World) :
  extends_with P w1 w2 -> extends_with P w2 w3 -> extends_with P w1 w3.
Proof.
  intros (l & E & F) (l' & E' & F'). exists (l ++ l')%list.
  rewrite E', E, app_assoc, forallb_app, F, F'. split; reflexivity.
Qed.

Lemma sends_ok_fetchVideoInfo_resume (r : Settled ResponseData) (w : World) :
  extends_with request_ok w (exec (fetchVideoInfo_resume r) w).
Proof.
  destruct (fetch_failure r) as [m|] eqn:E.
  - rewrite (exec_fetchVideoInfo_resume_failed r m w E). eexists. split; reflexivity.
  - destruct (fetch_failure_None r E) as (data & -> & T).
    rewrite (exec_fetchVideoInfo_resume_stored data w T). eexists. split; reflexivity.
Qed.

Lemma sends_ok_handleDownload_resume
      (u : string) (info : option ResponseData) (r : Settled DownloadResponse)
      (w : World) :
  truthy_string u = true ->
  extends_with request_ok w (exec (handleDownload_resume u info r) w).
Proof.
  intros Hu. destruct (download_failure info r) as [m|] eqn:E.
  - rewrite (exec_handleDownload_resume_failed u info r m w E).
    eexists. split; reflexivity.
  - destruct (download_failure_None info r E) as (response & -> & _).
    rewrite (exec_handleDownload_resume_saved u info response w E).
    eexists. split; [reflexivity|]. cbn. now rewrite Hu.
Qed.

Lemma sends_ok_dispatch (w : World) (ev : Event) :
  well_formed w -> extends_with request_ok w (dispatch w ev).
Proof.
  intros Hwf.
  destruct ev as [v| | | |id r|id r|id ev now1 now2|id r]; unfold dispatch.
  - rewrite exec_setUrl. eexists. split; reflexivity.
  - rewrite exec_handlePaste. eexists. split; reflexivity.
  - destruct (loading (state w)); [now apply extends_with_refl|].
    destruct (download_allowed (state w)) eqn:E.
    + rewrite (exec_handleDownload_valid w E). eexists. split; [reflexivity|].
      cbn. unfold download_allowed in E. now rewrite E.
    + rewrite (exec_handleDownload_invalid w E). eexists. split; reflexivity.
  - rewrite exec_handleClear. eexists. split; reflexivity.
  - destruct (lookup id (inflight w)) as [[u|u info|]|]; try now apply extends_with_refl.
    unfold wake. rewrite exec_handlePaste_resume. destruct r as [text|m].
    + rewrite exec_setUrl. eexists. split; reflexivity.
    + eexists. split; reflexivity.
  - destruct (lookup id (inflight w)) as [[u|u info|]|]; try now apply extends_with_refl.
    unfold wake. apply (sends_ok_fetchVideoInfo_resume r (retire id w)).
  - destruct (lookup id (inflight w)) as [[u|u info|]|]; try now apply extends_with_refl.
    rewrite exec_onDownloadProgress. eexists. split; [reflexivity|].
    now destruct (gt _ _).
  - destruct (lookup id (inflight w)) as [[u|u info|]|] eqn:Hid;
      try now apply extends_with_refl.
    unfold wake. apply (sends_ok_handleDownload_resume u info r (retire id w)).
    pose proof (closure_of_lookup w id _ Hwf Hid) as Hk.
    cbn [closure_ok] in Hk. now apply andb_true_iff in Hk.
Qed.

Lemma sends_ok_step (w : World) (ev : Event) :
  well_formed w -> extends_with request_ok w (step w ev).
Proof.
  intros Hwf. unfold step. eapply extends_with_trans.
  - now apply sends_ok_dispatch.
  - unfold useEffect_url.
    destruct (String.eqb _ _); [now apply extends_with_refl|].
    destruct (truthy_string (url (state (dispatch w ev)))) eqn:E;
      [|now apply extends_with_refl].
    rewrite exec_fetchVideoInfo. eexists. split; [reflexivity|].
    cbn. now rewrite E.
Qed.

Lemma sends_ok_run (evs : list Event) (w : World) :
  well_formed w ->
  forallb request_ok (trace w) = true ->
  forallb request_ok (trace (run w evs)) = true.
Proof.
  revert w. induction evs as [|ev evs IH]; intros w Hwf Hw; [exact Hw|].
  cbn [run fold_left]. apply IH; [now apply well_formed_step|].
  destruct (sends_ok_step w ev Hwf) as (l & -> & Hl).
  now rewrite forallb_app, Hw, Hl.
Qed.

(** X10.  Whatever the user does and however the requests settle, the
    component never sends a request with an empty URL: every [/video-info]
    request carries a non-empty [url], and every [/download] request a
    non-empty [url] and a non-empty [title]. *)
Theorem no_request_without_url (evs : list Event) :
  forallb request_ok (trace (run start evs)) = true.
Proof. apply sends_ok_run; [exact well_formed_start | reflexivity]. Qed.

(** ** What an event leaves alone *)

Lemma url_step_of_dispatch (w : World) (ev : Event) :
  url (state (dispatch w ev)) = url (state w) ->
  step w ev = dispatch w ev.
Proof. intros H. unfold step. now apply useEffect_url_unchanged. Qed.

Lemma videoInfo_useEffect_url (before : string) (w : World) :
  videoInfo (state (useEffect_url before w)) = videoInfo (state w).
Proof.
  unfold useEffect_url.
  destruct (String.eqb _ _); [reflexivity|].
  destruct (truthy_string _); [|reflexivity].
  now rewrite exec_fetchVideoInfo.
Qed.

Lemma videoInfo_fetchVideoInfo_resume_failed (message : string) (w : World) :
  videoInfo (state (exec (fetchVideoInfo_resume (Rejected message)) w))
  = videoInfo (state w).
Proof. now rewrite (exec_fetchVideoInfo_resume_failed (Rejected message) message w eq_refl). Qed.

Lemma videoInfo_handleDownload_resume
      (u : string) (info : option ResponseData) (r : Settled DownloadResponse)
      (w : World) :
  videoInfo (state (exec (handleDownload_resume u info r) w)) = videoInfo (state w).
Proof.
  destruct (download_failure info r) as [m|] eqn:E.
  - now rewrite (exec_handleDownload_resume_failed u info r m w E).
  - destruct (download_failure_None info r E) as (response & -> & _).
    now rewrite (exec_handleDownload_resume_saved u info response w E).
Qed.

(** X11.  The [url] changes only by typing, by a paste that succeeds and
    by Clear: no response from the server, no failure and no progress
    report touches it.  The metadata changes only by a metadata response,
    by starting a download and by Clear: neither the end of a download nor
    a progress report, a paste or a keystroke removes or replaces it. *)
Theorem cells_are_left_alone (w : World) (ev : Event) :
  (edits_url ev = false -> url (state (step w ev)) = url (state w))
  /\ (edits_videoInfo ev = false ->
      videoInfo (state (step w ev)) = videoInfo (state w)).
Proof.
  split.
  - intros H.
    assert (Hd : url (state (dispatch w ev)) = url (state w)).
    { destruct ev as [v| | | |id [text|m]|id r|id ev now1 now2|id r];
        try discriminate H; unfold dispatch.
      - now rewrite exec_handlePaste.
      - destruct (loading (state w)); [reflexivity | apply url_handleDownload].
      - now destruct (lookup id (inflight w)) as [[u|u info|]|].
      - destruct (lookup id (inflight w)) as [[u|u info|]|]; try reflexivity;
          exact (url_fetchVideoInfo_resume r (retire id w)).
      - destruct (lookup id (inflight w)) as [[u|u info|]|]; try reflexivity;
          now rewrite exec_onDownloadProgress.
      - destruct (lookup id (inflight w)) as [[u|u info|]|]; try reflexivity;
          exact (url_handleDownload_resume u info r (retire id w)). }
    now rewrite (url_step_of_dispatch w ev Hd).
  - intros H. unfold step. rewrite videoInfo_useEffect_url.
    destruct ev as [v| | | |id r|id [data|m]|id ev now1 now2|id r];
      try discriminate H; unfold dispatch.
    + now rewrite exec_setUrl.
    + now rewrite exec_handlePaste.
    + destruct (lookup id (inflight w)) as [[u|u info|]|]; try reflexivity;
        now destruct r.
    + destruct (lookup id (inflight w)) as [[u|u info|]|]; try reflexivity;
        exact (videoInfo_fetchVideoInfo_resume_failed m (retire id w)).
    + destruct (lookup id (inflight w)) as [[u|u info|]|]; try reflexivity;
        now rewrite exec_onDownloadProgress.
    + destruct (lookup id (inflight w)) as [[u|u info|]|]; try reflexivity;
        exact (videoInfo_handleDownload_resume u info r (retire id w)).
Qed.

Lemma cells_are_left_alone_witness :
  url (state (step downloading_MyClip
                   (DownloadSettled 1 (Rejected "Network Error"))))
  = url (state downloading_MyClip)
  /\ videoInfo (state (step ready_MyClip (Change "http://host/other")))
     = videoInfo (state ready_MyClip).
Proof.
  split.
  - apply (proj1 (cells_are_left_alone downloading_MyClip
                    (DownloadSettled 1 (Rejected "Network Error")))).
    reflexivity.
  - apply (proj2 (cells_are_left_alone ready_MyClip (Change "http://host/other"))).
    reflexivity.
Defined.

(** ** What the user sees of the progress *)

Lemma sub_self (x : number) : is_finite x = true -> sub x x = of_Z 0.
Proof.
  destruct x as [[|]|[|]| |s m e]; try discriminate; try reflexivity.
  intros _. unfold sub, SFsub. now rewrite Z.sub_diag.
Qed.

(** X12.  When the progress event carries no [startTime], the clock is
    read twice in a row and the elapsed time is zero, so the estimate
    written is "0m 0s" however much has been loaded: with a total above
    zero and a non-zero loaded fraction, and both clock readings equal. *)
Theorem estimate_without_startTime_is_zero
        (w : World) (ev : ProgressEvent) (now : number) :
  startTime ev = None ->
  is_finite now = true ->
  gt (or_default (total ev) (of_Z 0)) (of_Z 0) = true ->
  truthy (div (loaded ev) (or_default (total ev) (of_Z 0))) = true ->
  let w' := exec (onDownloadProgress ev now now) w in
  estimatedTime (state w') = Some "0m 0s"
  /\ eta_line (render (state w')) = Some "Estimated Time Left: 0m 0s".
Proof.
  intros Hst Hnow Hgt Hfrac w'. subst w'.
  rewrite exec_onDownloadProgress, Hgt.
  assert (H : formatTime (remainingTime ev now now) = "0m 0s").
  { unfold remainingTime, elapsedTime. rewrite Hst. cbn [or_default].
    rewrite (sub_self now Hnow).
    destruct (div (loaded ev) (or_default (total ev) (of_Z 0))) as [s|[|]| |[|] m e];
      try discriminate Hfrac; reflexivity. }
  unfold render. cbn [state estimatedTime]. rewrite H. split; reflexivity.
Qed.

Lemma estimate_without_startTime_is_zero_witness :
  estimatedTime
    (state (exec (onDownloadProgress (chunk 250000) (of_Z 1700000001000)
                                     (of_Z 1700000001000))
                 downloading_MyClip))
  = Some "0m 0s".
Proof.
  apply (estimate_without_startTime_is_zero
           downloading_MyClip (chunk 250000) (of_Z 1700000001000));
    reflexivity.
Defined.

(** X13.  While a download whose progress events carry no usable total
    (absent, zero or NaN) is in progress, the Download button does not show
    a percentage: after each such event it reads "Processing... Infinity%",
    or "Processing... NaN%" when nothing is loaded yet (or
    "Processing... -Infinity%" for a negative count). *)
Theorem button_shows_no_percentage_without_total
        (w : World) (ev : ProgressEvent) (now1 now2 : number) :
  loading (state w) = true ->
  or_default (total ev) (of_Z 0) = of_Z 0 ->
  let label := download_label
                 (render (state (exec (onDownloadProgress ev now1 now2) w))) in
  (truthy (loaded ev) = true -> lt (loaded ev) (of_Z 0) = false ->
   label = "Processing... Infinity%")
  /\ (truthy (loaded ev) = false -> label = "Processing... NaN%")
  /\ (label = "Processing... Infinity%"
      \/ label = "Processing... NaN%"
      \/ label = "Processing... -Infinity%").
Proof.
  intros Hl Htot label. subst label.
  rewrite exec_onDownloadProgress. unfold render. cbn [state loading progress].
  rewrite Hl. unfold percent. rewrite Htot.
  destruct (loaded ev) as [[|]|[|]| |[|] m e]; cbn;
    repeat split; try discriminate; auto.
Qed.

Lemma button_shows_no_percentage_without_total_witness :
  download_label
    (render (state (exec (onDownloadProgress (unknown 250000) (of_Z 0) (of_Z 0))
                         downloading_MyClip)))
  = "Processing... Infinity%".
Proof.
  apply (proj1 (button_shows_no_percentage_without_total
                  downloading_MyClip (unknown 250000) (of_Z 0) (of_Z 0)
                  eq_refl eq_refl));
    reflexivity.
Defined.

(** X14.  A download whose progress events all come without a usable
    total never shows an estimate: from a state without one, as a download
    starts in, no such event brings the "Estimated Time Left" line up. *)
Theorem no_estimate_line_without_total
        (w : World) (id : nat) (evs : list (ProgressEvent * number * number)) :
  estimatedTime (state w) = None ->
  Forall (fun e => gt (or_default (total (fst (fst e))) (of_Z 0)) (of_Z 0) = false) evs ->
  eta_line
    (render
       (state (run w (map (fun e => DownloadProgress id (fst (fst e)) (snd (fst e)) (snd e))
                          evs))))
  = None.
Proof.
  intros Hw Hall. unfold render. cbn [eta_line].
  now rewrite (eta_absent_while_total_unknown w id evs Hw Hall).
Qed.

Lemma no_estimate_line_without_total_witness :
  eta_line
    (render
       (state (run downloading_MyClip
                   (map (fun e => DownloadProgress 1 (fst (fst e)) (snd (fst e)) (snd e))
                        [(unknown 1000, of_Z 0, of_Z 0); (unknown 2000, of_Z 5, of_Z 5)]))))
  = None.
Proof.
  apply (no_estimate_line_without_total downloading_MyClip 1
           [(unknown 1000, of_Z 0, of_Z 0); (unknown 2000, of_Z 5, of_Z 5)] eq_refl).
  repeat constructor.
Defined.

(** ** Downloads begun from the button *)

(** X15.  Whatever led to it, a download in flight can always name its
    file: when its response has no Content-Disposition header and has
    bytes, the blob is saved under a non-empty title followed by ".mp4";
    the title is never missing where line 87 reads it. *)
Theorem fallback_name_always_has_a_title
        (evs : list Event) (id : nat) (u : string) (info : option ResponseData)
        (bytes : N) :
  lookup id (inflight (run start evs)) = Some (InHandleDownload u info) ->
  bytes <> 0%N ->
  exists t,
    t <> "" /\ title_of info = Some t
    /\ since (run start evs)
             (step (run start evs)
                   (DownloadSettled id (Resolved {| content_disposition := None;
                                                    size := bytes |})))
       = [SaveFile (t ++ ".mp4") bytes; SetLoading true; SetError "";
          PostVideoInfo u; ToastSuccess "Download completed successfully!";
          SetLoading false].
Proof.
  intros Hid Hbytes.
  destruct (suspended_download_has_title evs id u info Hid)
    as (_ & i & t & -> & Ht & Hne).
  exists t. split; [exact Hne|]. split; [exact Ht|].
  rewrite (step_DownloadSettled id u (Some i) _ _ Hid).
  assert (Hok : download_failure (Some i)
                  (Resolved {| content_disposition := None; size := bytes |}) = None).
  { unfold download_failure. cbn. apply N.eqb_neq in Hbytes. now rewrite Hbytes. }
  rewrite (exec_handleDownload_resume_saved u (Some i) _ _ Hok).
  apply since_app. cbn [trace retire size].
  unfold saved_name. cbn [content_disposition truthy_opt title_of]. now rewrite Ht.
Qed.

Lemma fallback_name_always_has_a_title_witness :
  exists t,
    t <> "" /\ title_of (Some MyClip) = Some t
    /\ since (run start [Change "http://host/v"; VideoInfoSettled 0 (Resolved MyClip);
                         ClickDownload])
             (step (run start [Change "http://host/v";
                               VideoInfoSettled 0 (Resolved MyClip); ClickDownload])
                   (DownloadSettled 1 (Resolved {| content_disposition := None;
                                                   size := 1024 |})))
       = [SaveFile (t ++ ".mp4") 1024; SetLoading true; SetError "";
          PostVideoInfo "http://host/v";
          ToastSuccess "Download completed successfully!"; SetLoading false].
Proof.
  apply (fallback_name_always_has_a_title
           [Change "http://host/v"; VideoInfoSettled 0 (Resolved MyClip); ClickDownload]
           1 "http://host/v" (Some MyClip) 1024);
    [reflexivity | discriminate].
Defined.

(** X16.  A double click downloads once: after a click that line 47 lets
    through, the button is disabled, and a second click before anything
    settles changes nothing and sends nothing. *)
Theorem double_click_downloads_once (w : World) :
  loading (state w) = false ->
  download_allowed (state w) = true ->
  download_disabled (render (state (step w ClickDownload))) = true
  /\ step (step w ClickDownload) ClickDownload = step w ClickDownload.
Proof.
  intros Hl Hok.
  rewrite (step_ClickDownload w Hl), (exec_handleDownload_valid w Hok).
  split; [reflexivity|].
  unfold step, dispatch. cbn [state loading].
  now apply useEffect_url_unchanged.
Qed.

Lemma double_click_downloads_once_witness :
  step (step ready_MyClip ClickDownload) ClickDownload = step ready_MyClip ClickDownload.
Proof.
  apply (double_click_downloads_once ready_MyClip); reflexivity.
Defined.

(* ================================================================== *)
(** * The estimate and the metadata during a transfer *)
(* ================================================================== *)

(** ** Where the elapsed time comes from *)

Lemma eta_from_not_negative (start now loaded total : number) :
  lt (eta_from start now loaded total) (of_Z 0) = false.
Proof.
  unfold eta_from. destruct (sub _ _) as [[|]|[|]| |[|] m e]; reflexivity.
Qed.

(** With a [startTime] that is not zero or NaN, the elapsed time runs from
    it to the first reading of the clock. *)
Lemma remainingTime_with_startTime
      (ev : ProgressEvent) (st now1 now2 : number) :
  startTime ev = Some st -> truthy st = true ->
  remainingTime ev now1 now2
  = eta_from st now1 (loaded ev) (or_default (total ev) (of_Z 0)).
Proof.
  intros Hst Htr. unfold remainingTime, elapsedTime, eta_from.
  rewrite Hst. cbn [or_default]. now rewrite Htr.
Qed.

(** Without one, it runs from the second reading of the clock to the
    first. *)
Lemma remainingTime_without_startTime
      (ev : ProgressEvent) (now1 now2 : number) :
  has_startTime ev = false ->
  remainingTime ev now1 now2
  = eta_from now2 now1 (loaded ev) (or_default (total ev) (of_Z 0)).
Proof.
  intros H. unfold remainingTime, elapsedTime, eta_from.
  unfold has_startTime in H.
  destruct (startTime ev) as [st|]; cbn [or_default]; [now rewrite H | reflexivity].
Qed.

(** Measured from the present, the elapsed time is zero and so is the
    remaining time, whatever non-zero fraction is loaded; it is NaN when the
    fraction is zero. *)
Lemma eta_from_now (now loaded total : number) :
  is_finite now = true ->
  (truthy (div loaded total) = true ->
   formatTime (eta_from now now loaded total) = "0m 0s")
  /\ (div loaded total = of_Z 0 ->
      formatTime (eta_from now now loaded total) = "NaNm NaNs").
Proof.
  intros Hnow. unfold eta_from. rewrite (sub_self now Hnow). split.
  - intros Hfrac.
    destruct (div loaded total) as [s|[|]| |[|] m e];
      try discriminate Hfrac; reflexivity.
  - intros ->. reflexivity.
Qed.

(** C7 (counterexample).  A quarter of the bytes is there one minute after
    the download began, and the progress event has no [startTime]: the
    estimate written is "0m 0s", not the "3m 0s" that the formula gives for
    the minute elapsed.  And before any byte is there the estimate is
    "NaNm NaNs": the value formatted is NaN, not a number at or above
    zero. *)
Lemma C7_estimate_ignores_the_time_elapsed :
  let began := of_Z 1700000000000 in
  let now := of_Z 1700000060000 in
  let written :=
    estimatedTime
      (state (exec (onDownloadProgress (chunk 250000) now now) downloading_MyClip)) in
  written = Some "0m 0s"
  /\ formatTime (eta_from began now (of_Z 250000) (of_Z 1000000)) = "3m 0s"
  /\ written <> Some (formatTime (eta_from began now (of_Z 250000) (of_Z 1000000)))
  /\ estimatedTime
       (state (exec (onDownloadProgress nothing_loaded now now) downloading_MyClip))
     = Some "NaNm NaNs"
  /\ le (of_Z 0) (remainingTime nothing_loaded now now) = false.
Proof. vm_compute. repeat split; discriminate. Qed.

(** C7 (amended).  On a progress event with a total above zero,
    [estimatedTime] becomes the formatted
    [max(elapsed / (loaded / total) - elapsed, 0)], a value never below
    zero.  [elapsed] is the clock minus [startTime], in seconds, when the
    event carries a [startTime] other than zero or NaN; when it does not,
    [elapsed] is the clock minus a second reading of the clock, so with both
    readings equal the estimate is "0m 0s" for every non-zero fraction loaded
    and "NaNm NaNs" for a fraction of zero.  On an event whose total is not
    above zero (absent, 0 or NaN), [estimatedTime] is not written and stays
    what it was. *)
Theorem C7_estimate_from_startTime_or_clock
        (w : World) (ev : ProgressEvent) (now1 now2 : number) :
  let total := or_default (total ev) (of_Z 0) in
  let w' := exec (onDownloadProgress ev now1 now2) w in
  (forall st,
      gt total (of_Z 0) = true ->
      startTime ev = Some st -> truthy st = true ->
      estimatedTime (state w')
      = Some (formatTime (eta_from st now1 (loaded ev) total))
      /\ since w w'
         = [SetProgress (percent ev);
            SetEstimatedTime (Some (formatTime (eta_from st now1 (loaded ev) total)))])
  /\ (gt total (of_Z 0) = true ->
      has_startTime ev = false ->
      estimatedTime (state w')
      = Some (formatTime (eta_from now2 now1 (loaded ev) total))
      /\ since w w'
         = [SetProgress (percent ev);
            SetEstimatedTime (Some (formatTime (eta_from now2 now1 (loaded ev) total)))])
  /\ (gt total (of_Z 0) = true ->
      has_startTime ev = false ->
      now1 = now2 -> is_finite now1 = true ->
      (truthy (div (loaded ev) total) = true ->
       estimatedTime (state w') = Some "0m 0s")
      /\ (div (loaded ev) total = of_Z 0 ->
          estimatedTime (state w') = Some "NaNm NaNs"))
  /\ (forall start now loaded total,
        lt (eta_from start now loaded total) (of_Z 0) = false)
  /\ (gt total (of_Z 0) = false ->
      estimatedTime (state w') = estimatedTime (state w)
      /\ since w w' = [SetProgress (percent ev)]).
Proof.
  intros tot w'. subst w'. rewrite exec_onDownloadProgress. fold tot.
  split; [|split; [|split; [|split]]].
  - intros st Hgt Hst Htr. rewrite Hgt.
    rewrite (remainingTime_with_startTime ev st now1 now2 Hst Htr). fold tot.
    split; [reflexivity | now apply since_app].
  - intros Hgt Hno. rewrite Hgt.
    rewrite (remainingTime_without_startTime ev now1 now2 Hno). fold tot.
    split; [reflexivity | now apply since_app].
  - intros Hgt Hno <- Hfin. rewrite Hgt.
    rewrite (remainingTime_without_startTime ev now1 now1 Hno). fold tot.
    cbn [state estimatedTime].
    destruct (eta_from_now now1 (loaded ev) tot Hfin) as [Hzero Hnan].
    split; intros H; [now rewrite (Hzero H) | now rewrite (Hnan H)].
  - apply eta_from_not_negative.
  - intros ->. split; [reflexivity | now apply since_app].
Qed.

Lemma C7_estimate_from_startTime_or_clock_witness :
  estimatedTime
    (state (exec (onDownloadProgress
                    {| loaded := of_Z 250000; total := Some (of_Z 1000000);
                       startTime := Some (of_Z 1700000000000) |}
                    (of_Z 1700000060000) (of_Z 1700000060000))
                 downloading_MyClip))
  = Some (formatTime (eta_from (of_Z 1700000000000) (of_Z 1700000060000)
                               (of_Z 250000) (of_Z 1000000)))
  /\ estimatedTime
       (state (exec (onDownloadProgress (chunk 250000) (of_Z 1700000060000)
                                        (of_Z 1700000060000))
                    downloading_MyClip))
     = Some "0m 0s"
  /\ estimatedTime
       (state (exec (onDownloadProgress (unknown 250000) (of_Z 1700000060000)
                                        (of_Z 1700000060000))
                    downloading_MyClip))
     = None.
Proof.
  split; [|split].
  - apply (proj1 (C7_estimate_from_startTime_or_clock
                    downloading_MyClip
                    {| loaded := of_Z 250000; total := Some (of_Z 1000000);
                       startTime := Some (of_Z 1700000000000) |}
                    (of_Z 1700000060000) (of_Z 1700000060000))
             (of_Z 1700000000000) eq_refl eq_refl eq_refl).
  - apply (proj1 (proj1 (proj2 (proj2 (C7_estimate_from_startTime_or_clock
                    downloading_MyClip (chunk 250000)
                    (of_Z 1700000060000) (of_Z 1700000060000))))
             eq_refl eq_refl eq_refl eq_refl)).
    reflexivity.
  - apply (proj1 (proj2 (proj2 (proj2 (proj2 (C7_estimate_from_startTime_or_clock
                    downloading_MyClip (unknown 250000)
                    (of_Z 1700000060000) (of_Z 1700000060000)))))
             eq_refl)).
Defined.

(** ** What can bring the metadata back *)





